(** * add_user_to_apache_jira.py: the role-assignment client

    A shallow embedding of [add_user_to_jira_role] and of the few library
    calls it makes ([requests.get], [requests.post],
    [Response.raise_for_status], [Response.json], [str.split],
    [json.dumps], [print]), followed by the properties the specification
    states about it.

    Conventions.
    - A Python [str] is a Rocq [string]; each character is read as the code
      point of the same number (0..255).
    - The tracker is an oracle ([Transport]) that answers each request with a
      response or makes the call raise.
    - The function runs in a small monad that threads the observable trace
      (lines printed, requests sent) and the local variable [response], and
      that distinguishes falling through, [return] and a raised exception. *)

From Stdlib Require Import String Ascii List ZArith Bool Lia.
From Stdlib Require Import DecimalString.
From Stdlib Require Import Floats.SpecFloat.
Import ListNotations.

Local Open Scope string_scope.
Local Open Scope Z_scope.

(** ** Python values *)

Module Py.

(** What [Response.json()] can hand back: the image of a JSON document. A
    [dict] keeps its items in insertion order. *)
#[warnings="-register-all"]
Inductive value : Type :=
| VNone
| VBool (b : bool)
| VInt (z : Z)
| VFloat (f : spec_float)
| VStr (s : string)
| VList (l : list value)
| VDict (items : list (string * value)).

(** [bool(s)] for a [str]. *)
Definition str_truthy (s : string) : bool :=
  match s with
  | EmptyString => false
  | String _ _ => true
  end.

(** [bool(v)]. *)
Definition truthy (v : value) : bool :=
  match v with
  | VNone => false
  | VBool b => b
  | VInt z => negb (z =? 0)
  | VFloat f => match f with S754_zero _ => false | _ => true end
  | VStr s => str_truthy s
  | VList l => match l with [] => false | _ :: _ => true end
  | VDict items => match items with [] => false | _ :: _ => true end
  end.

(** [bool(x)] for a variable that holds [None] or a [str]. *)
Definition opt_truthy (x : option string) : bool :=
  match x with
  | None => false
  | Some s => str_truthy s
  end.

(** [type(v).__name__], as it appears in the text of an [AttributeError]. *)
Definition type_name (v : value) : string :=
  match v with
  | VNone => "NoneType"
  | VBool _ => "bool"
  | VInt _ => "int"
  | VFloat _ => "float"
  | VStr _ => "str"
  | VList _ => "list"
  | VDict _ => "dict"
  end.

(** [s.split(c)] for a one-character separator [c]: cut at every occurrence,
    keep empty pieces; the result is never empty. *)
Fixpoint split (c : ascii) (s : string) : list string :=
  match s with
  | EmptyString => [EmptyString]
  | String a rest =>
      if Ascii.eqb a c then EmptyString :: split c rest
      else match split c rest with
           | [] => [String a EmptyString]
           | piece :: pieces => String a piece :: pieces
           end
  end.

(** [l[-1]]; [None] stands for the [IndexError] of an empty list. *)
Fixpoint last_item {A : Type} (l : list A) : option A :=
  match l with
  | [] => None
  | [x] => Some x
  | _ :: rest => last_item rest
  end.

(** [sep.join(parts)]. *)
Definition join (sep : string) (parts : list string) : string :=
  String.concat sep parts.

(** [str(n)] for an [int]. *)
Definition str_of_int (n : Z) : string :=
  NilZero.string_of_int (Z.to_int n).

End Py.

(** ** The characters that cannot be written inside a string literal *)

Definition dquote : ascii := "034"%char.
Definition newline : ascii := "010"%char.
Definition slash : ascii := "/"%char.

(** ** [json.dumps] on the one shape the script serialises *)

Module Json.

Definition hex_digit (n : N) : ascii :=
  match n with
  | 0 => "0" | 1 => "1" | 2 => "2" | 3 => "3" | 4 => "4" | 5 => "5"
  | 6 => "6" | 7 => "7" | 8 => "8" | 9 => "9" | 10 => "a" | 11 => "b"
  | 12 => "c" | 13 => "d" | 14 => "e" | _ => "f"
  end%N%char.

(** The replacement [json.encoder] makes for one character with
    [ensure_ascii=True]: backslash and the double quote are escaped, the
    printable range space..tilde is kept, five control characters have
    short escapes, everything else becomes [\u00xx]. *)
Definition escape_char (c : ascii) : string :=
  let n := N_of_ascii c in
  if Ascii.eqb c "\"%char then "\\"
  else if Ascii.eqb c dquote then String "\"%char (String dquote EmptyString)
  else if ((32 <=? n) && (n <=? 126))%N then String c EmptyString
  else if (n =? 8)%N then "\b"
  else if (n =? 12)%N then "\f"
  else if (n =? 10)%N then "\n"
  else if (n =? 13)%N then "\r"
  else if (n =? 9)%N then "\t"
  else "\u00" ++ String (hex_digit (n / 16)) (String (hex_digit (n mod 16)) EmptyString).

Fixpoint escape (s : string) : string :=
  match s with
  | EmptyString => EmptyString
  | String c rest => escape_char c ++ escape rest
  end.

(** [json.dumps(s)] for a [str]. *)
Definition dumps_str (s : string) : string :=
  String dquote (escape s ++ String dquote EmptyString).

(** [json.dumps({k: [s]})] with the default separators [", "] and [": "]. *)
Definition dumps_singleton_list_dict (k s : string) : string :=
  "{" ++ dumps_str k ++ ": [" ++ dumps_str s ++ "]}".

End Json.

(** ** The [requests] library, as far as the script uses it *)

Definition headers_t : Type := list (string * string).

(** A [requests.Response]. [json] is the outcome of [Response.json()]:
    the decoded document, or the text of the [requests.JSONDecodeError]
    raised for a body that is not JSON. *)
Record Response : Type := mkResponse {
  status_code : Z;
  reason : string;
  url : string;
  text : string;
  json : Py.value + string
}.

(** The exceptions that can travel through the function. [RequestException]
    stands for every class of the [requests.exceptions.RequestException]
    hierarchy except [HTTPError] ([ConnectionError], [Timeout],
    [JSONDecodeError], ...); [OtherException] for any class outside it. *)
Inductive exn : Type :=
| HTTPError (msg : string)
| RequestException (msg : string)
| AttributeError (msg : string)
| IndexError (msg : string)
| UnboundLocalError (msg : string)
| OtherException (msg : string).

(** How a call of [requests.get] or [requests.post] ends. *)
Inductive reply : Type :=
| Responded (r : Response)
| RequestFailed (msg : string)
| Crashed (msg : string).

(** The remote tracker and the network in front of it. *)
Record Transport : Type := mkTransport {
  on_get : string -> headers_t -> reply;
  on_post : string -> string -> headers_t -> reply
}.

(** ** Observable behaviour *)

Inductive event : Type :=
| EvPrint (line : string)
| EvGet (url : string) (headers : headers_t)
| EvPost (url : string) (data : string) (headers : headers_t).

Definition is_post (e : event) : bool :=
  match e with EvPost _ _ _ => true | _ => false end.

Definition is_request (e : event) : bool :=
  match e with EvPrint _ => false | _ => true end.

Definition posts (t : list event) : list event := filter is_post t.
Definition requests (t : list event) : list event := filter is_request t.

(** The lines written to standard output, in order. *)
Fixpoint stdout (t : list event) : list string :=
  match t with
  | [] => []
  | EvPrint line :: rest => line :: stdout rest
  | _ :: rest => stdout rest
  end.

(** ** The monad of the function body *)

(** The trace so far and the local variable [response] ([None] while
    unbound). *)
Record state : Type := mkState {
  trace : list event;
  response : option Response
}.

Definition initial : state := mkState [] None.

(** How a block of statements ends. *)
Inductive completion (A : Type) : Type :=
| Normal (a : A)
| Return (b : bool)
| Raise (e : exn).
Arguments Normal {A} a.
Arguments Return {A} b.
Arguments Raise {A} e.

Definition M (A : Type) : Type := state -> completion A * state.

Definition ret {A : Type} (a : A) : M A := fun s => (Normal a, s).

Definition bind {A B : Type} (m : M A) (k : A -> M B) : M B :=
  fun s =>
    match m s with
    | (Normal a, s') => k a s'
    | (Return b, s') => (Return b, s')
    | (Raise e, s') => (Raise e, s')
    end.

Definition return_ {A : Type} (b : bool) : M A := fun s => (Return b, s).
Definition raise {A : Type} (e : exn) : M A := fun s => (Raise e, s).

(** [try: body  except ...: handler]. [handler e] is [None] when no
    [except] clause matches [e], which then keeps travelling. *)
Definition try_except {A : Type} (body : M A) (handler : exn -> option (M A)) : M A :=
  fun s =>
    match body s with
    | (Raise e, s') =>
        match handler e with
        | Some h => h s'
        | None => (Raise e, s')
        end
    | other => other
    end.

Declare Scope py_scope.
Delimit Scope py_scope with py.
Notation "x <- m ;; k" := (bind m (fun x => k))
  (at level 61, m at next level, right associativity) : py_scope.
Notation "m ;; k" := (bind m (fun _ => k))
  (at level 61, right associativity) : py_scope.
Local Open Scope py_scope.

Definition emit (e : event) : M unit :=
  fun s => (Normal tt, mkState (trace s ++ [e]) (response s)).

(** [print(line)]. *)
Definition print (line : string) : M unit := emit (EvPrint line).

(** [if c: body], with nothing to do otherwise. *)
Definition when (c : bool) (body : M unit) : M unit :=
  if c then body else ret tt.

(** [response = requests.get(url, headers=headers)]. *)
Definition requests_get (net : Transport) (u : string) (headers : headers_t) : M unit :=
  emit (EvGet u headers) ;;
  match on_get net u headers with
  | Responded r => fun s => (Normal tt, mkState (trace s) (Some r))
  | RequestFailed msg => raise (RequestException msg)
  | Crashed msg => raise (OtherException msg)
  end.

(** [response = requests.post(url, data=data, headers=headers)]. *)
Definition requests_post (net : Transport) (u data : string) (headers : headers_t) : M unit :=
  emit (EvPost u data headers) ;;
  match on_post net u data headers with
  | Responded r => fun s => (Normal tt, mkState (trace s) (Some r))
  | RequestFailed msg => raise (RequestException msg)
  | Crashed msg => raise (OtherException msg)
  end.

(** Reading the local variable [response]. *)
Definition get_response : M Response :=
  fun s =>
    match response s with
    | Some r => (Normal r, s)
    | None =>
        (Raise (UnboundLocalError
                  "cannot access local variable 'response' where it is not associated with a value"), s)
    end.

(** [Response.raise_for_status()]: an [HTTPError] for the statuses 400..599,
    nothing for any other status. *)
Definition http_error_msg (r : Response) : string :=
  if (400 <=? status_code r) && (status_code r <? 500) then
    Py.str_of_int (status_code r) ++ " Client Error: " ++ reason r ++ " for url: " ++ url r
  else if (500 <=? status_code r) && (status_code r <? 600) then
    Py.str_of_int (status_code r) ++ " Server Error: " ++ reason r ++ " for url: " ++ url r
  else "".

Definition raise_for_status (r : Response) : M unit :=
  if Py.str_truthy (http_error_msg r) then raise (HTTPError (http_error_msg r))
  else ret tt.

(** [Response.json()]. *)
Definition response_json (r : Response) : M Py.value :=
  match json r with
  | inl v => ret v
  | inr msg => raise (RequestException msg)
  end.

(** [v.items()], [v.keys()] and [v.split('/')]: defined on a [dict], a
    [dict] and a [str]; an [AttributeError] on anything else. *)
Definition no_attribute {A : Type} (v : Py.value) (attr : string) : M A :=
  raise (AttributeError ("'" ++ Py.type_name v ++ "' object has no attribute '" ++ attr ++ "'")).

Definition py_items (v : Py.value) : M (list (string * Py.value)) :=
  match v with
  | Py.VDict items => ret items
  | _ => no_attribute v "items"
  end.

Definition py_keys (v : Py.value) : M (list string) :=
  match v with
  | Py.VDict items => ret (map fst items)
  | _ => no_attribute v "keys"
  end.

Definition py_split_slash (v : Py.value) : M (list string) :=
  match v with
  | Py.VStr s => ret (Py.split slash s)
  | _ => no_attribute v "split"
  end.

Definition py_last (l : list string) : M string :=
  match Py.last_item l with
  | Some x => ret x
  | None => raise (IndexError "list index out of range")
  end.

(** ** The script *)

Definition JIRA_URL : string := "https://issues.apache.org/jira".

(** [os.environ.get(name)] on an environment given as its list of
    [name=value] entries. *)
Fixpoint environ_get (environ : list (string * string)) (name : string) : option string :=
  match environ with
  | [] => None
  | (k, v) :: rest => if String.eqb k name then Some v else environ_get rest name
  end.

(** The module-level [JIRA_API_TOKEN = os.environ.get("JIRA_API_TOKEN")]. *)
Definition JIRA_API_TOKEN (environ : list (string * string)) : option string :=
  environ_get environ "JIRA_API_TOKEN".

Definition msg_found (contributor_role_id : string) : string :=
  "Found 'Contributors' role with ID: " ++ contributor_role_id.

(** The [for role_name, role_url in roles.items()] loop. It starts with
    [contributor_role_id = None] and yields the variable's value when the
    loop is left, by [break] or by exhaustion. *)
Fixpoint find_contributors (items : list (string * Py.value)) : M (option string) :=
  match items with
  | [] => ret None
  | (role_name, role_url) :: rest =>
      if String.eqb role_name "Contributors" then
        parts <- py_split_slash role_url ;;
        contributor_role_id <- py_last parts ;;
        print (msg_found contributor_role_id) ;;
        ret (Some contributor_role_id)
      else find_contributors rest
  end.

Definition headers_of (token : string) : headers_t :=
  [ ("Content-Type", "application/json");
    ("Authorization", "Bearer " ++ token) ].

Definition roles_url_of (project_key : string) : string :=
  JIRA_URL ++ "/rest/api/2/project/" ++ project_key ++ "/role".

Definition add_user_url_of (project_key contributor_role_id : string) : string :=
  JIRA_URL ++ "/rest/api/2/project/" ++ project_key ++ "/role/" ++ contributor_role_id.

Definition msg_token_not_set : string :=
  "Error: JIRA_API_TOKEN environment variable is not set.".
Definition msg_export_token : string :=
  "Please export your Personal Access Token before running the script.".
Definition msg_no_roles : string := "No roles found for this project.".
Definition msg_role_not_found (project_key : string) : string :=
  "Error: Could not find a role named 'Contributors' in project '" ++ project_key ++ "'.".
Definition msg_available_roles (names : list string) : string :=
  "Available roles: " ++ Py.join ", " names.
Definition msg_project_not_found (project_key : string) : string :=
  "Error: Project with key '" ++ project_key ++ "' not found.".
Definition msg_auth_issue : string :=
  "Error: Authentication or Permission issue. Please check your Personal Access Token and your account permissions on Jira.".
Definition msg_jira_response (body : string) : string := "Jira response: " ++ body.
Definition msg_http_error (http_err : string) : string := "HTTP error occurred: " ++ http_err.
Definition msg_error_occurred (err : string) : string := "An error occurred: " ++ err.
Definition msg_failed_to_add (status : Z) : string :=
  "Error: Failed to add user. Status Code: " ++ Py.str_of_int status.
Definition msg_please_check : string := "Please check the user, project key, and role ID.".
Definition msg_fetching (project_key : string) : string :=
  "Fetching roles for project '" ++ project_key ++ "' to find 'Contributors'...".
Definition msg_adding (user_to_add contributor_role_id project_key : string) : string :=
  String newline
    ("Adding user '" ++ user_to_add ++ "' to 'Contributors' role (ID: "
       ++ contributor_role_id ++ ") in project '" ++ project_key ++ "'...").
Definition msg_success (user_to_add : string) : string :=
  "Successfully added user '" ++ user_to_add ++ "' to the 'Contributors' role.".

(** Step 1 of the function: the first [try] statement. It ends normally
    with the value of [contributor_role_id], with [return False], or with an
    exception that neither [except] clause catches. The value [None] cannot
    reach the last branch; it is written as the f-string would print it. *)
Definition fetch_contributor_role_id
    (net : Transport) (headers : headers_t) (project_key : string) : M string :=
  try_except
    (requests_get net (roles_url_of project_key) headers ;;
     r <- get_response ;;
     raise_for_status r ;;
     r <- get_response ;;
     roles <- response_json r ;;
     if negb (Py.truthy roles) then
       print msg_no_roles ;;
       return_ false
     else
       items <- py_items roles ;;
       contributor_role_id <- find_contributors items ;;
       if negb (Py.opt_truthy contributor_role_id) then
         print (msg_role_not_found project_key) ;;
         names <- py_keys roles ;;
         print (msg_available_roles names) ;;
         return_ false
       else
         match contributor_role_id with
         | Some id => ret id
         | None => ret "None"
         end)
    (fun e =>
       match e with
       | HTTPError http_err => Some (
           print (msg_http_error http_err) ;;
           r <- get_response ;;
           (if status_code r =? 404 then
              print (msg_project_not_found project_key)
            else
              when ((status_code r =? 401) || (status_code r =? 403))
                (print msg_auth_issue)) ;;
           r <- get_response ;;
           when (Py.str_truthy (text r)) (print (msg_jira_response (text r))) ;;
           return_ false)
       | RequestException err => Some (
           print (msg_error_occurred err) ;;
           return_ false)
       | _ => None
       end).

(** Step 2 of the function: the second [try] statement. It ends with
    [return True], with [return False], or with an uncaught exception. *)
Definition post_membership
    (net : Transport) (headers : headers_t)
    (user_to_add project_key contributor_role_id : string) : M unit :=
  let add_user_url := add_user_url_of project_key contributor_role_id in
  let payload := Json.dumps_singleton_list_dict "user" user_to_add in
  print (msg_adding user_to_add contributor_role_id project_key) ;;
  try_except
    (requests_post net add_user_url payload headers ;;
     r <- get_response ;;
     raise_for_status r ;;
     print (msg_success user_to_add) ;;
     return_ true)
    (fun e =>
       match e with
       | HTTPError http_err => Some (
           print (msg_http_error http_err) ;;
           r <- get_response ;;
           print (msg_failed_to_add (status_code r)) ;;
           print msg_please_check ;;
           r <- get_response ;;
           when (Py.str_truthy (text r)) (print (msg_jira_response (text r))) ;;
           return_ false)
       | RequestException err => Some (
           print (msg_error_occurred err) ;;
           return_ false)
       | _ => None
       end).

(** [add_user_to_jira_role(user_to_add, project_key)], with the module
    global [JIRA_API_TOKEN] and the transport as explicit arguments. *)
Definition add_user_to_jira_role
    (token : option string) (net : Transport) (user_to_add project_key : string) : M unit :=
  if negb (Py.opt_truthy token) then
    print msg_token_not_set ;;
    print msg_export_token ;;
    return_ false
  else
    let headers := headers_of (match token with Some t => t | None => "None" end) in
    print (msg_fetching project_key) ;;
    contributor_role_id <- fetch_contributor_role_id net headers project_key ;;
    post_membership net headers user_to_add project_key contributor_role_id.

(** One call of the function from a fresh frame. *)
Definition call (token : option string) (net : Transport) (user_to_add project_key : string)
  : completion unit * state :=
  add_user_to_jira_role token net user_to_add project_key initial.

(** The state after one more event, after one more printed line, and after
    a response has been bound to [response]. *)
Definition sent (s : state) (e : event) : state :=
  mkState (trace s ++ [e]) (response s).
Definition printed (s : state) (line : string) : state := sent s (EvPrint line).
Definition received (s : state) (r : Response) : state :=
  mkState (trace s) (Some r).

(** The request of step 2 for a resolved role identifier. *)
Definition membership_post (token user_to_add project_key contributor_role_id : string) : event :=
  EvPost (add_user_url_of project_key contributor_role_id)
         (Json.dumps_singleton_list_dict "user" user_to_add)
         (headers_of token).

(** The value the call returns: [Some b] for [return b], [None] when an
    exception leaves the function. *)
Definition returned (r : completion unit * state) : option bool :=
  match fst r with
  | Return b => Some b
  | _ => None
  end.

Definition trace_of (r : completion unit * state) : list event := trace (snd r).

(** [m] adds at most [n] write requests to the trace, from any state and
    however it ends. *)
Definition sends_at_most {A : Type} (n : nat) (m : M A) : Prop :=
  forall s, (length (posts (trace (snd (m s)))) <= length (posts (trace s)) + n)%nat.

(** ** Words of the specification *)

(** [c] occurs in [s]. *)
Fixpoint contains (c : ascii) (s : string) : bool :=
  match s with
  | EmptyString => false
  | String a rest => Ascii.eqb a c || contains c rest
  end.

Definition is_digit (c : ascii) : bool :=
  ((48 <=? N_of_ascii c) && (N_of_ascii c <=? 57))%N.

Fixpoint all_digits (s : string) : bool :=
  match s with
  | EmptyString => true
  | String a rest => is_digit a && all_digits rest
  end.

(** A numeric identifier: one decimal digit or more. *)
Definition numeric (s : string) : bool := Py.str_truthy s && all_digits s.

(** A Role Directory: a [dict], so no key occurs twice. *)
Definition role_directory (items : list (string * Py.value)) : Prop :=
  NoDup (map fst items).

(** The roles fetch succeeded and returned the directory [items]. *)
Definition fetch_returns
    (net : Transport) (token project_key : string) (items : list (string * Py.value)) : Prop :=
  exists r,
    on_get net (roles_url_of project_key) (headers_of token) = Responded r /\
    ~ (400 <= status_code r < 600) /\
    json r = inl (Py.VDict items).

(** ** Sample trackers *)

Module Sample.

(** A tracker that gives the same answer to every read and the same answer
    to every write. *)
Definition tracker (get_answer post_answer : reply) : Transport :=
  mkTransport (fun _ _ => get_answer) (fun _ _ _ => post_answer).

Definition role_url (id : string) : string :=
  "https://issues.apache.org/jira/rest/api/2/project/12318021/role/" ++ id.

(** The directory of the end-to-end scenario. *)
Definition hdds_roles : list (string * Py.value) :=
  [ ("Contributors", Py.VStr (role_url "777"));
    ("Developers", Py.VStr (role_url "1")) ].

Definition other_roles : list (string * Py.value) :=
  [ ("Administrators", Py.VStr (role_url "10002"));
    ("Developers", Py.VStr (role_url "10001")) ].

Definition dangling_roles : list (string * Py.value) :=
  [ ("Developers", Py.VStr (role_url "10001"));
    ("Contributors", Py.VStr (role_url "")) ].

Definition roles_response (items : list (string * Py.value)) : Response :=
  mkResponse 200 "OK" (roles_url_of "HDDS") "{...}" (inl (Py.VDict items)).

Definition no_content : Response :=
  mkResponse 204 "No Content" (add_user_url_of "HDDS" "777") "" (inr "Expecting value").

Definition not_modified : Response :=
  mkResponse 304 "Not Modified" (add_user_url_of "HDDS" "777") "" (inr "Expecting value").

Definition already_member_body : string :=
  "{" ++ String dquote "errorMessages" ++ String dquote ":["
      ++ String dquote "alice already a member" ++ String dquote "]}".

Definition bad_request : Response :=
  mkResponse 400 "Bad Request" (add_user_url_of "HDDS" "777") already_member_body
             (inl (Py.VDict [("errorMessages", Py.VList [Py.VStr "alice already a member"])])).


Definition unreachable : reply := RequestFailed "connection refused".

End Sample.

(** ** Words for the properties of the whole script *)

(** [m] adds exactly the requests [l] to the trace, from any state and
    however it ends. *)
Definition adds_requests {A : Type} (l : list event) (m : M A) : Prop :=
  forall s, requests (trace (snd (m s))) = (requests (trace s) ++ l)%list.

(** Two states that show the same standard output and hold the same
    [response]. *)
Definition same_console (s1 s2 : state) : Prop :=
  stdout (trace s1) = stdout (trace s2) /\ response s1 = response s2.

(** Two blocks that, from states with the same console, end the same way
    and leave the same console. *)
Definition agree {A : Type} (m1 m2 : M A) : Prop :=
  forall s1 s2, same_console s1 s2 ->
    fst (m1 s1) = fst (m2 s2) /\ same_console (snd (m1 s1)) (snd (m2 s2)).


(** Every way step 1 can end, with what the tracker must have answered. *)
Inductive fetch_path
    (net : Transport) (headers : headers_t) (project_key : string) (s : state)
  : completion string * state -> Prop :=
| path_request_failed msg :
    on_get net (roles_url_of project_key) headers = RequestFailed msg ->
    fetch_path net headers project_key s (Return false,
                  printed (sent s (EvGet (roles_url_of project_key) headers))
                          (msg_error_occurred msg))
| path_crashed msg :
    on_get net (roles_url_of project_key) headers = Crashed msg ->
    fetch_path net headers project_key s (Raise (OtherException msg),
                  sent s (EvGet (roles_url_of project_key) headers))
| path_http_error r s' :
    on_get net (roles_url_of project_key) headers = Responded r ->
    400 <= status_code r < 600 ->
    fetch_path net headers project_key s (Return false, s')
| path_bad_json r msg s' :
    on_get net (roles_url_of project_key) headers = Responded r ->
    ~ (400 <= status_code r < 600) -> json r = inr msg ->
    fetch_path net headers project_key s (Return false, s')
| path_falsy r v s' :
    on_get net (roles_url_of project_key) headers = Responded r ->
    ~ (400 <= status_code r < 600) -> json r = inl v -> Py.truthy v = false ->
    fetch_path net headers project_key s (Return false, s')
| path_not_a_dict r v msg s' :
    on_get net (roles_url_of project_key) headers = Responded r ->
    ~ (400 <= status_code r < 600) -> json r = inl v -> Py.truthy v = true ->
    (forall items, v <> Py.VDict items) ->
    fetch_path net headers project_key s (Raise (AttributeError msg), s')
| path_role_missing r items s' :
    on_get net (roles_url_of project_key) headers = Responded r ->
    ~ (400 <= status_code r < 600) -> json r = inl (Py.VDict items) ->
    ~ In "Contributors" (map fst items) ->
    fetch_path net headers project_key s (Return false, s')
| path_role_not_a_str r before w after msg s' :
    on_get net (roles_url_of project_key) headers = Responded r ->
    ~ (400 <= status_code r < 600) ->
    json r = inl (Py.VDict (before ++ ("Contributors", w) :: after)) ->
    ~ In "Contributors" (map fst before) ->
    (forall v, w <> Py.VStr v) ->
    fetch_path net headers project_key s (Raise (AttributeError msg), s')
| path_role_empty r before v after s' :
    on_get net (roles_url_of project_key) headers = Responded r ->
    ~ (400 <= status_code r < 600) ->
    json r = inl (Py.VDict (before ++ ("Contributors", Py.VStr v) :: after)) ->
    ~ In "Contributors" (map fst before) ->
    Py.last_item (Py.split slash v) = Some "" ->
    fetch_path net headers project_key s (Return false, s')
| path_resolved r before v after id :
    on_get net (roles_url_of project_key) headers = Responded r ->
    ~ (400 <= status_code r < 600) ->
    json r = inl (Py.VDict (before ++ ("Contributors", Py.VStr v) :: after)) ->
    ~ In "Contributors" (map fst before) ->
    Py.last_item (Py.split slash v) = Some id ->
    id <> "" ->
    fetch_path net headers project_key s (Normal id,
                  printed (received (sent s (EvGet (roles_url_of project_key) headers)) r)
                          (msg_found id)).

(** The printable ASCII range, space to tilde. *)
Definition printable (c : ascii) : bool :=
  ((32 <=? N_of_ascii c) && (N_of_ascii c <=? 126))%N.

Fixpoint all_printable (s : string) : bool :=
  match s with
  | EmptyString => true
  | String c rest => printable c && all_printable rest
  end.

(** Reading back the first character that [Json.escape] wrote: the inverse
    used to show that the encoding loses nothing. *)
Definition unhex (c : ascii) : option N :=
  let n := N_of_ascii c in
  if ((48 <=? n) && (n <=? 57))%N then Some (n - 48)%N
  else if ((97 <=? n) && (n <=? 102))%N then Some (n - 87)%N
  else None.

Definition unescape_head (s : string) : option (ascii * string) :=
  match s with
  | EmptyString => None
  | String c rest =>
      if Ascii.eqb c "\"%char then
        match rest with
        | EmptyString => None
        | String e rest' =>
            if Ascii.eqb e "\"%char then Some ("\"%char, rest')
            else if Ascii.eqb e dquote then Some (dquote, rest')
            else if Ascii.eqb e "b"%char then Some ("008"%char, rest')
            else if Ascii.eqb e "f"%char then Some ("012"%char, rest')
            else if Ascii.eqb e "n"%char then Some ("010"%char, rest')
            else if Ascii.eqb e "r"%char then Some ("013"%char, rest')
            else if Ascii.eqb e "t"%char then Some ("009"%char, rest')
            else if Ascii.eqb e "u"%char then
              match rest' with
              | String "0" (String "0" (String h (String l rest''))) =>
                  match unhex h, unhex l with
                  | Some a, Some b => Some (ascii_of_N (16 * a + b), rest'')
                  | _, _ => None
                  end
              | _ => None
              end
            else None
        end
      else Some (c, rest)
  end.

(** ** The [__main__] block *)

Module Script.

(** What the terminal shows: a prompt written by [input] (no newline after
    it), or an event of the function. *)
Inductive console : Type :=
| Prompt (text : string)
| Event (e : event).

(** [s * n]. *)
Fixpoint times (s : string) (n : nat) : string :=
  match n with
  | O => EmptyString
  | S n' => s ++ times s n'
  end.

(** The [EOFError] of [input] at the end of standard input. *)
Definition EOFError : exn := OtherException "EOF when reading a line".

Definition banner : list console :=
  [ Event (EvPrint "--- Jira User Role Assignment Script ---");
    Event (EvPrint ("Using Jira instance: " ++ JIRA_URL)) ].

Definition ask_username : console := Prompt "Enter the username to add: ".
Definition ask_project_key : console := Prompt "Enter the project key (e.g., HDDS): ".

(** The block under [if __name__ == "__main__"], run with the environment
    [environ] and the lines [stdin] waiting on standard input. It ends
    normally (exit status 0) or with an uncaught exception (exit status 1);
    the value returned by the function is dropped. *)
Definition main
    (environ : list (string * string)) (net : Transport) (stdin : list string)
  : completion unit * list console :=
  match stdin with
  | [] => (Raise EOFError, banner ++ [ask_username])%list
  | username_to_add :: stdin' =>
      match stdin' with
      | [] => (Raise EOFError, banner ++ [ask_username; ask_project_key])%list
      | project_key_input :: _ =>
          let run := call (JIRA_API_TOKEN environ) net username_to_add project_key_input in
          (match fst run with
           | Raise e => Raise e
           | _ => Normal tt
           end,
           banner
             ++ [ask_username; ask_project_key; Event (EvPrint (times "-" 35))]
             ++ map Event (trace_of run))%list
      end
  end.

(** The requests among what the terminal saw. *)
Fixpoint requests_shown (t : list console) : list event :=
  match t with
  | [] => []
  | Event e :: rest => if is_request e then e :: requests_shown rest else requests_shown rest
  | Prompt _ :: rest => requests_shown rest
  end.

(** The lines and prompts written to standard output. *)
Fixpoint shown (t : list console) : list string :=
  match t with
  | [] => []
  | Event (EvPrint line) :: rest => line :: shown rest
  | Event _ :: rest => shown rest
  | Prompt text :: rest => text :: shown rest
  end.

End Script.

(** ** More sample answers *)

Module Scenario.

(** A 200 answer to the read request with the document [doc]. *)
Definition answered (doc : Py.value) : Response :=
  mkResponse 200 "OK" (roles_url_of "HDDS") "..." (inl doc).

(** A directory whose "Contributors" value has no '/' and is no number. *)
Definition opaque_roles : list (string * Py.value) :=
  [ ("Contributors", Py.VStr "abc") ].

(** A directory whose "Contributors" value is a number, not a string. *)
Definition numbered_roles : list (string * Py.value) :=
  [ ("Developers", Py.VStr (Sample.role_url "10001"));
    ("Contributors", Py.VInt 10030) ].

Definition happy : Transport :=
  Sample.tracker (Responded (Sample.roles_response Sample.hdds_roles))
                 (Responded Sample.no_content).

Definition write_refused : Transport :=
  Sample.tracker (Responded (Sample.roles_response Sample.hdds_roles))
                 Sample.unreachable.

End Scenario.

(** ** Reading the body back *)

(** [s] between two double quotes, as it stands. *)
Definition in_quotes (s : string) : string :=
  String dquote (s ++ String dquote EmptyString).

(** A character that a JSON string literal holds as itself: printable
    ASCII other than the double quote and the backslash. *)
Definition plain (c : ascii) : bool :=
  printable c && negb (Ascii.eqb c dquote) && negb (Ascii.eqb c "\"%char).

Fixpoint all_plain (s : string) : bool :=
  match s with
  | EmptyString => true
  | String c rest => plain c && all_plain rest
  end.

(** A reader of JSON text after RFC 8259, for strings of code points
    0..255 and for documents of the shape [{"k": ["s"]}] written with the
    separators [": "] and none other. It is the yardstick for the body of
    the write request: what the reader gives is what the tracker reads. *)
Module JsonText.

Inductive mode : Type :=
| Plain
| Escaped
| Hex (remaining : nat) (acc : N).

(** The value of a hexadecimal digit, in either case. *)
Definition hex_value (c : ascii) : option N :=
  let n := N_of_ascii c in
  if ((48 <=? n) && (n <=? 57))%N then Some (n - 48)%N
  else if ((97 <=? n) && (n <=? 102))%N then Some (n - 87)%N
  else if ((65 <=? n) && (n <=? 70))%N then Some (n - 55)%N
  else None.

(** The characters of a string literal after its opening quote: the string
    they denote and the text after the closing quote. Raw control
    characters, unknown escapes and code points above 255 are refused. *)
Fixpoint read_chars (m : mode) (s : string) : option (string * string) :=
  match s with
  | EmptyString => None
  | String c rest =>
      let keep (x : ascii) :=
        match read_chars Plain rest with
        | Some (denoted, after) => Some (String x denoted, after)
        | None => None
        end in
      match m with
      | Plain =>
          if Ascii.eqb c dquote then Some (EmptyString, rest)
          else if Ascii.eqb c "\"%char then read_chars Escaped rest
          else if (N_of_ascii c <? 32)%N then None
          else keep c
      | Escaped =>
          if Ascii.eqb c dquote then keep dquote
          else if Ascii.eqb c "\"%char then keep "\"%char
          else if Ascii.eqb c "/"%char then keep "/"%char
          else if Ascii.eqb c "b"%char then keep "008"%char
          else if Ascii.eqb c "f"%char then keep "012"%char
          else if Ascii.eqb c "n"%char then keep "010"%char
          else if Ascii.eqb c "r"%char then keep "013"%char
          else if Ascii.eqb c "t"%char then keep "009"%char
          else if Ascii.eqb c "u"%char then read_chars (Hex 4 0) rest
          else None
      | Hex remaining acc =>
          match hex_value c, remaining with
          | Some d, 1%nat =>
              if (16 * acc + d <? 256)%N then keep (ascii_of_N (16 * acc + d)) else None
          | Some d, S k => read_chars (Hex k (16 * acc + d)) rest
          | _, _ => None
          end
      end
  end.

(** A string literal at the head of [s]. *)
Definition read_literal (s : string) : option (string * string) :=
  match s with
  | String c rest => if Ascii.eqb c dquote then read_chars Plain rest else None
  | EmptyString => None
  end.

(** [s] without the prefix [p]. *)
Fixpoint strip (p s : string) : option string :=
  match p, s with
  | EmptyString, _ => Some s
  | String a p', String b s' => if Ascii.eqb a b then strip p' s' else None
  | String _ _, EmptyString => None
  end.

(** The key and the one string of a document [{"k": ["s"]}]. *)
Definition read_singleton_list_dict (doc : string) : option (string * string) :=
  match strip "{" doc with
  | Some t1 =>
      match read_literal t1 with
      | Some (k, t2) =>
          match strip ": [" t2 with
          | Some t3 =>
              match read_literal t3 with
              | Some (s, t4) => if String.eqb t4 "]}" then Some (k, s) else None
              | None => None
              end
          | None => None
          end
      | None => None
      end
  | None => None
  end.

End JsonText.

(** ** Strings and lists *)

Section StringFacts.

Lemma split_nonempty (c : ascii) (s : string) : Py.split c s <> [].
Proof.
  destruct s as [|a s]; simpl; [discriminate|].
  destruct (Ascii.eqb a c); [discriminate|].
  destruct (Py.split c s); discriminate.
Qed.

(** Cutting [a ++ c ++ b] at [c] gives the pieces of [a] followed by the
    pieces of [b]. *)
Lemma split_app_sep (c : ascii) (a b : string) :
  Py.split c (a ++ String c b) = (Py.split c a ++ Py.split c b)%list.
Proof.
  induction a as [|x a IH]; simpl.
  - rewrite Ascii.eqb_refl. reflexivity.
  - destruct (Ascii.eqb x c).
    + rewrite IH. reflexivity.
    + rewrite IH. destruct (Py.split c a) as [|p ps] eqn:E.
      * exfalso. exact (split_nonempty c a E).
      * reflexivity.
Qed.

Lemma split_no_sep (c : ascii) (s : string) :
  contains c s = false -> Py.split c s = [s].
Proof.
  induction s as [|x s IH]; simpl; intros H; [reflexivity|].
  apply orb_false_iff in H. destruct H as [Hx Hs].
  rewrite Hx, (IH Hs). reflexivity.
Qed.

Lemma last_item_app {A : Type} (l1 l2 : list A) :
  l2 <> [] -> Py.last_item (l1 ++ l2) = Py.last_item l2.
Proof.
  intros H. induction l1 as [|x l1 IH]; [reflexivity|].
  simpl. rewrite IH. destruct (l1 ++ l2)%list eqn:E; [|reflexivity].
  apply app_eq_nil in E. destruct E as [_ E]. contradiction.
Qed.

Lemma last_item_some {A : Type} (l : list A) :
  l <> [] -> exists x, Py.last_item l = Some x.
Proof.
  induction l as [|x l IH]; intros H; [contradiction|].
  destruct l as [|y l]; [exists x; reflexivity|].
  destruct IH as [z Hz]; [discriminate|]. exists z. exact Hz.
Qed.

(** The last piece of [pre ++ "/" ++ id] is [id] when [id] has no slash. *)
Lemma last_segment (c : ascii) (pre id : string) :
  contains c id = false ->
  Py.last_item (Py.split c (pre ++ String c id)) = Some id.
Proof.
  intros H. rewrite split_app_sep, last_item_app by apply split_nonempty.
  rewrite (split_no_sep _ _ H). reflexivity.
Qed.

Lemma digit_not_slash (a : ascii) : is_digit a = true -> Ascii.eqb a slash = false.
Proof.
  intros H. destruct (Ascii.eqb a slash) eqn:E; [|reflexivity].
  apply Ascii.eqb_eq in E. subst a. discriminate H.
Qed.

Lemma all_digits_no_slash (s : string) : all_digits s = true -> contains slash s = false.
Proof.
  induction s as [|a s IH]; simpl; intros H; [reflexivity|].
  apply andb_true_iff in H. destruct H as [Ha Hs].
  rewrite (digit_not_slash a Ha), (IH Hs). reflexivity.
Qed.

Lemma str_truthy_app_r (a b : string) :
  Py.str_truthy b = true -> Py.str_truthy (a ++ b) = true.
Proof. destruct a; simpl; auto. Qed.

Lemma append_assoc (a b c : string) : (a ++ b) ++ c = a ++ b ++ c.
Proof. induction a as [|x a IH]; simpl; [reflexivity|rewrite IH; reflexivity]. Qed.

Lemma append_slash (pre id : string) :
  pre ++ "/" ++ id = pre ++ String slash id.
Proof. reflexivity. Qed.

End StringFacts.

(** ** Library calls *)

Section LibraryFacts.

Lemma http_error_msg_truthy (r : Response) :
  400 <= status_code r < 600 -> Py.str_truthy (http_error_msg r) = true.
Proof.
  intros H. unfold http_error_msg.
  destruct ((400 <=? status_code r) && (status_code r <? 500)) eqn:E4.
  - apply str_truthy_app_r. reflexivity.
  - destruct ((500 <=? status_code r) && (status_code r <? 600)) eqn:E5.
    + apply str_truthy_app_r. reflexivity.
    + exfalso.
      apply andb_false_iff in E4. apply andb_false_iff in E5.
      rewrite !Z.leb_gt, !Z.ltb_ge in *. lia.
Qed.

Lemma http_error_msg_empty (r : Response) :
  ~ (400 <= status_code r < 600) -> http_error_msg r = "".
Proof.
  intros H. unfold http_error_msg.
  destruct ((400 <=? status_code r) && (status_code r <? 500)) eqn:E4.
  - exfalso. apply andb_true_iff in E4. rewrite Z.leb_le, Z.ltb_lt in E4. lia.
  - destruct ((500 <=? status_code r) && (status_code r <? 600)) eqn:E5; [|reflexivity].
    exfalso. apply andb_true_iff in E5. rewrite Z.leb_le, Z.ltb_lt in E5. lia.
Qed.

(** [raise_for_status] raises exactly on the statuses 400..599. *)
Lemma raise_for_status_error (r : Response) :
  400 <= status_code r < 600 ->
  raise_for_status r = raise (HTTPError (http_error_msg r)).
Proof.
  intros H. unfold raise_for_status. rewrite (http_error_msg_truthy r H). reflexivity.
Qed.

Lemma raise_for_status_pass (r : Response) :
  ~ (400 <= status_code r < 600) -> raise_for_status r = ret tt.
Proof.
  intros H. unfold raise_for_status. rewrite (http_error_msg_empty r H). reflexivity.
Qed.

End LibraryFacts.

(** ** The loop over the directory *)

Section Loop.

(** No key matches: the loop runs to exhaustion, silently. *)
Lemma find_contributors_absent (items : list (string * Py.value)) (s : state) :
  ~ In "Contributors" (map fst items) ->
  find_contributors items s = (Normal None, s).
Proof.
  induction items as [|[k v] items IH]; simpl; intros H; [reflexivity|].
  destruct (String.eqb k "Contributors") eqn:E.
  - apply String.eqb_eq in E. exfalso. apply H. left. exact E.
  - apply IH. intros Hin. apply H. right. exact Hin.
Qed.

(** The first entry whose key matches decides the loop. *)
Lemma find_contributors_first
    (before after : list (string * Py.value)) (v : string) (s : state) :
  ~ In "Contributors" (map fst before) ->
  exists id,
    Py.last_item (Py.split slash v) = Some id /\
    find_contributors (before ++ ("Contributors", Py.VStr v) :: after) s
    = (Normal (Some id), printed s (msg_found id)).
Proof.
  intros H.
  destruct (last_item_some (Py.split slash v) (split_nonempty slash v)) as [id Hid].
  exists id. split; [exact Hid|].
  induction before as [|[k w] before IH]; simpl.
  - unfold bind, py_last. simpl. rewrite Hid. reflexivity.
  - destruct (String.eqb k "Contributors") eqn:E.
    + apply String.eqb_eq in E. exfalso. apply H. left. exact E.
    + apply IH. intros Hin. apply H. right. exact Hin.
Qed.

(** In a [dict] the entry of a key is the first one with that key. *)
Lemma entry_is_first (items : list (string * Py.value)) (k : string) (v : Py.value) :
  role_directory items -> In (k, v) items ->
  exists before after,
    items = (before ++ (k, v) :: after)%list /\ ~ In k (map fst before).
Proof.
  unfold role_directory. intros Hnd Hin.
  destruct (in_split _ _ Hin) as [before [after E]].
  exists before, after. split; [exact E|].
  subst items. rewrite map_app in Hnd. simpl in Hnd.
  apply NoDup_remove_2 in Hnd. intros Hb. apply Hnd.
  apply in_or_app. left. exact Hb.
Qed.

Lemma find_contributors_entry (items : list (string * Py.value)) (v : string) (s : state) :
  role_directory items -> In ("Contributors", Py.VStr v) items ->
  exists id,
    Py.last_item (Py.split slash v) = Some id /\
    find_contributors items s = (Normal (Some id), printed s (msg_found id)).
Proof.
  intros Hd Hin.
  destruct (entry_is_first items _ _ Hd Hin) as [before [after [E Hb]]].
  subst items. apply find_contributors_first. exact Hb.
Qed.

End Loop.

(** ** Running the monad *)

#[local] Arguments roles_url_of : simpl never.
#[local] Arguments headers_of : simpl never.
#[local] Arguments add_user_url_of : simpl never.
#[local] Arguments raise_for_status : simpl never.
#[local] Arguments find_contributors : simpl never.
#[local] Arguments http_error_msg : simpl never.
#[local] Arguments Py.str_of_int : simpl never.
#[local] Arguments Py.join : simpl never.
#[local] Arguments Json.dumps_singleton_list_dict : simpl never.
#[local] Arguments msg_no_roles : simpl never.
#[local] Arguments msg_role_not_found : simpl never.
#[local] Arguments msg_available_roles : simpl never.
#[local] Arguments msg_project_not_found : simpl never.
#[local] Arguments msg_auth_issue : simpl never.
#[local] Arguments msg_jira_response : simpl never.
#[local] Arguments msg_http_error : simpl never.
#[local] Arguments msg_error_occurred : simpl never.
#[local] Arguments msg_failed_to_add : simpl never.
#[local] Arguments msg_please_check : simpl never.
#[local] Arguments msg_success : simpl never.
#[local] Arguments msg_found : simpl never.
#[local] Arguments msg_fetching : simpl never.
#[local] Arguments msg_adding : simpl never.
#[local] Arguments msg_token_not_set : simpl never.
#[local] Arguments msg_export_token : simpl never.

Ltac unfold_step :=
  unfold fetch_contributor_role_id, post_membership,
    requests_get, requests_post, response_json, py_items, py_keys,
    print, when, get_response, emit, bind, try_except, ret, return_, raise.

Section Bind.

Context {A B : Type} (m : M A) (k : A -> M B) (s s' : state).

Lemma bind_normal (a : A) : m s = (Normal a, s') -> bind m k s = k a s'.
Proof. intros H. unfold bind. rewrite H. reflexivity. Qed.

Lemma bind_return (b : bool) : m s = (Return b, s') -> bind m k s = (Return b, s').
Proof. intros H. unfold bind. rewrite H. reflexivity. Qed.

Lemma bind_raise (e : exn) : m s = (Raise e, s') -> bind m k s = (Raise e, s').
Proof. intros H. unfold bind. rewrite H. reflexivity. Qed.

End Bind.

(** ** Step 1, path by path *)

Section Fetch.

Variables (net : Transport) (headers : headers_t) (project_key : string).

Let asked (s : state) : state := sent s (EvGet (roles_url_of project_key) headers).

Lemma fetch_request_failed (s : state) (msg : string) :
  on_get net (roles_url_of project_key) headers = RequestFailed msg ->
  fetch_contributor_role_id net headers project_key s
  = (Return false, printed (asked s) (msg_error_occurred msg)).
Proof.
  intros H. unfold_step. rewrite H. reflexivity.
Qed.

Lemma fetch_crashed (s : state) (msg : string) :
  on_get net (roles_url_of project_key) headers = Crashed msg ->
  fetch_contributor_role_id net headers project_key s
  = (Raise (OtherException msg), asked s).
Proof.
  intros H. unfold_step. rewrite H. reflexivity.
Qed.

Lemma fetch_http_error (s : state) (r : Response) :
  on_get net (roles_url_of project_key) headers = Responded r ->
  400 <= status_code r < 600 ->
  fetch_contributor_role_id net headers project_key s
  = (Return false,
     let s1 := printed (received (asked s) r) (msg_http_error (http_error_msg r)) in
     let s2 :=
       if status_code r =? 404 then printed s1 (msg_project_not_found project_key)
       else if (status_code r =? 401) || (status_code r =? 403)
            then printed s1 msg_auth_issue
            else s1 in
     if Py.str_truthy (text r) then printed s2 (msg_jira_response (text r)) else s2).
Proof.
  intros H Hst. unfold_step. rewrite H. cbn.
  rewrite (raise_for_status_error r Hst). unfold raise. cbn.
  destruct (status_code r =? 404); cbn.
  - destruct (Py.str_truthy (text r)); reflexivity.
  - destruct ((status_code r =? 401) || (status_code r =? 403)); cbn;
      destruct (Py.str_truthy (text r)); reflexivity.
Qed.

Lemma fetch_bad_json (s : state) (r : Response) (msg : string) :
  on_get net (roles_url_of project_key) headers = Responded r ->
  ~ (400 <= status_code r < 600) ->
  json r = inr msg ->
  fetch_contributor_role_id net headers project_key s
  = (Return false, printed (received (asked s) r) (msg_error_occurred msg)).
Proof.
  intros H Hst Hj. unfold_step. rewrite H. cbn.
  rewrite (raise_for_status_pass r Hst). unfold ret. cbn. rewrite Hj. reflexivity.
Qed.

Lemma fetch_falsy (s : state) (r : Response) (v : Py.value) :
  on_get net (roles_url_of project_key) headers = Responded r ->
  ~ (400 <= status_code r < 600) ->
  json r = inl v -> Py.truthy v = false ->
  fetch_contributor_role_id net headers project_key s
  = (Return false, printed (received (asked s) r) msg_no_roles).
Proof.
  intros H Hst Hj Hv. unfold_step. rewrite H. cbn.
  rewrite (raise_for_status_pass r Hst). unfold ret. cbn. rewrite Hj, Hv. reflexivity.
Qed.

Lemma fetch_role_missing
    (s s2 : state) (r : Response) (item : string * Py.value)
    (items : list (string * Py.value)) (found : option string) :
  on_get net (roles_url_of project_key) headers = Responded r ->
  ~ (400 <= status_code r < 600) ->
  json r = inl (Py.VDict (item :: items)) ->
  find_contributors (item :: items) (received (asked s) r) = (Normal found, s2) ->
  Py.opt_truthy found = false ->
  fetch_contributor_role_id net headers project_key s
  = (Return false,
     printed (printed s2 (msg_role_not_found project_key))
             (msg_available_roles (map fst (item :: items)))).
Proof.
  intros H Hst Hj Hloop Hfound. unfold_step. rewrite H. cbn.
  rewrite (raise_for_status_pass r Hst). unfold ret. cbn. rewrite Hj. cbn.
  unfold received, asked, sent in Hloop. cbn in Hloop. rewrite Hloop, Hfound.
  reflexivity.
Qed.

Lemma fetch_resolved
    (s s2 : state) (r : Response) (item : string * Py.value)
    (items : list (string * Py.value)) (id : string) :
  on_get net (roles_url_of project_key) headers = Responded r ->
  ~ (400 <= status_code r < 600) ->
  json r = inl (Py.VDict (item :: items)) ->
  find_contributors (item :: items) (received (asked s) r) = (Normal (Some id), s2) ->
  Py.str_truthy id = true ->
  fetch_contributor_role_id net headers project_key s = (Normal id, s2).
Proof.
  intros H Hst Hj Hloop Hid. unfold_step. rewrite H. cbn.
  rewrite (raise_for_status_pass r Hst). unfold ret. cbn. rewrite Hj. cbn.
  unfold received, asked, sent in Hloop. cbn in Hloop. rewrite Hloop. cbn.
  rewrite Hid. reflexivity.
Qed.

(** A document that is truthy but not a [dict] has no [items]: the
    [AttributeError] is caught by neither [except] clause. *)
Lemma fetch_not_a_dict (s : state) (r : Response) (v : Py.value) :
  on_get net (roles_url_of project_key) headers = Responded r ->
  ~ (400 <= status_code r < 600) ->
  json r = inl v -> Py.truthy v = true ->
  (forall items, v <> Py.VDict items) ->
  fetch_contributor_role_id net headers project_key s
  = (Raise (AttributeError ("'" ++ Py.type_name v ++ "' object has no attribute 'items'")),
     received (asked s) r).
Proof.
  intros H Hst Hj Hv Hshape. unfold_step. rewrite H. cbn.
  rewrite (raise_for_status_pass r Hst). unfold ret. cbn. rewrite Hj, Hv. cbn.
  destruct v; try reflexivity. exfalso. exact (Hshape items eq_refl).
Qed.

End Fetch.

(** ** Step 2, path by path *)

Section Membership.

Variables (net : Transport) (token user_to_add project_key id : string).

Let announced (s : state) : state :=
  sent (printed s (msg_adding user_to_add id project_key))
       (membership_post token user_to_add project_key id).

Let answer : reply :=
  on_post net (add_user_url_of project_key id)
          (Json.dumps_singleton_list_dict "user" user_to_add) (headers_of token).

Lemma post_accepted (s : state) (r : Response) :
  answer = Responded r ->
  ~ (400 <= status_code r < 600) ->
  post_membership net (headers_of token) user_to_add project_key id s
  = (Return true, printed (received (announced s) r) (msg_success user_to_add)).
Proof.
  unfold answer. intros H Hst. unfold_step. cbn. rewrite H. cbn.
  rewrite (raise_for_status_pass r Hst). reflexivity.
Qed.

Lemma post_http_error (s : state) (r : Response) :
  answer = Responded r ->
  400 <= status_code r < 600 ->
  post_membership net (headers_of token) user_to_add project_key id s
  = (Return false,
     let s1 := printed (received (announced s) r) (msg_http_error (http_error_msg r)) in
     let s2 := printed (printed s1 (msg_failed_to_add (status_code r))) msg_please_check in
     if Py.str_truthy (text r) then printed s2 (msg_jira_response (text r)) else s2).
Proof.
  unfold answer. intros H Hst. unfold_step. cbn. rewrite H. cbn.
  rewrite (raise_for_status_error r Hst). unfold raise. cbn.
  destruct (Py.str_truthy (text r)); reflexivity.
Qed.

Lemma post_request_failed (s : state) (msg : string) :
  answer = RequestFailed msg ->
  post_membership net (headers_of token) user_to_add project_key id s
  = (Return false, printed (announced s) (msg_error_occurred msg)).
Proof.
  unfold answer. intros H. unfold_step. cbn. rewrite H. reflexivity.
Qed.

Lemma post_crashed (s : state) (msg : string) :
  answer = Crashed msg ->
  post_membership net (headers_of token) user_to_add project_key id s
  = (Raise (OtherException msg), announced s).
Proof.
  unfold answer. intros H. unfold_step. cbn. rewrite H. reflexivity.
Qed.

End Membership.

(** ** The whole call *)

Section Call.

Variables (net : Transport) (user_to_add project_key : string).

Lemma call_without_token (token : option string) :
  Py.opt_truthy token = false ->
  call token net user_to_add project_key
  = (Return false, printed (printed initial msg_token_not_set) msg_export_token).
Proof.
  intros H. unfold call, add_user_to_jira_role. rewrite H. reflexivity.
Qed.

Lemma call_with_token (token : string) :
  Py.str_truthy token = true ->
  call (Some token) net user_to_add project_key
  = (id <- fetch_contributor_role_id net (headers_of token) project_key ;;
     post_membership net (headers_of token) user_to_add project_key id)
      (printed initial (msg_fetching project_key)).
Proof.
  intros H. unfold call, add_user_to_jira_role, Py.opt_truthy. rewrite H.
  reflexivity.
Qed.

(** A roles fetch that ends the call: the call ends the same way. *)
Lemma call_fetch_return (token : string) (b : bool) (s : state) :
  Py.str_truthy token = true ->
  fetch_contributor_role_id net (headers_of token) project_key
    (printed initial (msg_fetching project_key)) = (Return b, s) ->
  call (Some token) net user_to_add project_key = (Return b, s).
Proof.
  intros Ht H. rewrite (call_with_token token Ht). apply bind_return. exact H.
Qed.

(** A roles fetch that resolves the role: the call goes on with step 2. *)
Lemma call_fetch_normal (token id : string) (s : state) :
  Py.str_truthy token = true ->
  fetch_contributor_role_id net (headers_of token) project_key
    (printed initial (msg_fetching project_key)) = (Normal id, s) ->
  call (Some token) net user_to_add project_key
  = post_membership net (headers_of token) user_to_add project_key id s.
Proof.
  intros Ht H. rewrite (call_with_token token Ht). apply bind_normal. exact H.
Qed.

End Call.

(** ** Traces *)

Section Traces.

Lemma posts_app (t1 t2 : list event) : posts (t1 ++ t2) = (posts t1 ++ posts t2)%list.
Proof. apply filter_app. Qed.

Lemma requests_app (t1 t2 : list event) :
  requests (t1 ++ t2) = (requests t1 ++ requests t2)%list.
Proof. apply filter_app. Qed.

Lemma stdout_app (t1 t2 : list event) : stdout (t1 ++ t2) = (stdout t1 ++ stdout t2)%list.
Proof.
  induction t1 as [|e t1 IH]; [reflexivity|].
  destruct e; simpl; rewrite IH; reflexivity.
Qed.

Lemma posts_printed (s : state) (line : string) :
  posts (trace (printed s line)) = posts (trace s).
Proof. simpl. rewrite posts_app. simpl. apply app_nil_r. Qed.

Lemma stdout_printed (s : state) (line : string) :
  stdout (trace (printed s line)) = (stdout (trace s) ++ [line])%list.
Proof. simpl. rewrite stdout_app. reflexivity. Qed.

End Traces.

(** ** Counting write requests *)

Section Counting.

Lemma quiet_ret {A : Type} (a : A) : sends_at_most 0 (ret a).
Proof. intros s. simpl. lia. Qed.

Lemma quiet_return {A : Type} (b : bool) : sends_at_most 0 (@return_ A b).
Proof. intros s. simpl. lia. Qed.

Lemma quiet_raise {A : Type} (e : exn) : sends_at_most 0 (@raise A e).
Proof. intros s. simpl. lia. Qed.

Lemma quiet_print (line : string) : sends_at_most 0 (print line).
Proof. intros s. simpl. rewrite posts_app. simpl. rewrite app_nil_r. lia. Qed.

Lemma quiet_when (c : bool) (body : M unit) :
  sends_at_most 0 body -> sends_at_most 0 (when c body).
Proof. intros H. destruct c; [exact H|apply quiet_ret]. Qed.

Lemma sends_bind {A B : Type} (a b : nat) (m : M A) (k : A -> M B) :
  sends_at_most a m -> (forall x, sends_at_most b (k x)) ->
  sends_at_most (a + b) (bind m k).
Proof.
  intros Hm Hk s. unfold bind. specialize (Hm s).
  destruct (m s) as [[x|r|e] s1]; simpl in *; try lia.
  specialize (Hk x s1). lia.
Qed.

Lemma quiet_bind {A B : Type} (n : nat) (m : M A) (k : A -> M B) :
  sends_at_most 0 m -> (forall x, sends_at_most n (k x)) ->
  sends_at_most n (bind m k).
Proof. intros Hm Hk. exact (sends_bind 0 n m k Hm Hk). Qed.

Lemma sends_try {A : Type} (n : nat) (body : M A) (handler : exn -> option (M A)) :
  sends_at_most n body ->
  (forall e h, handler e = Some h -> sends_at_most 0 h) ->
  sends_at_most n (try_except body handler).
Proof.
  intros Hb Hh s. unfold try_except. specialize (Hb s).
  destruct (body s) as [[x|r|e] s1]; simpl in *; try lia.
  destruct (handler e) as [h|] eqn:E; simpl; [|lia].
  specialize (Hh e h E s1). lia.
Qed.

Lemma sends_weaken {A : Type} (a b : nat) (m : M A) :
  (a <= b)%nat -> sends_at_most a m -> sends_at_most b m.
Proof. intros Hab H s. specialize (H s). lia. Qed.

Lemma quiet_get_response : sends_at_most 0 get_response.
Proof. intros s. unfold get_response. destruct (response s); simpl; lia. Qed.

Lemma quiet_raise_for_status (r : Response) : sends_at_most 0 (raise_for_status r).
Proof.
  unfold raise_for_status.
  destruct (Py.str_truthy (http_error_msg r)); [apply quiet_raise|apply quiet_ret].
Qed.

Lemma quiet_response_json (r : Response) : sends_at_most 0 (response_json r).
Proof.
  unfold response_json. destruct (json r); [apply quiet_ret|apply quiet_raise].
Qed.

Lemma quiet_py_items (v : Py.value) : sends_at_most 0 (py_items v).
Proof. destruct v; first [apply quiet_ret | apply quiet_raise]. Qed.

Lemma quiet_py_keys (v : Py.value) : sends_at_most 0 (py_keys v).
Proof. destruct v; first [apply quiet_ret | apply quiet_raise]. Qed.

Lemma quiet_py_split_slash (v : Py.value) : sends_at_most 0 (py_split_slash v).
Proof. destruct v; first [apply quiet_ret | apply quiet_raise]. Qed.

Lemma quiet_py_last (l : list string) : sends_at_most 0 (py_last l).
Proof.
  unfold py_last. destruct (Py.last_item l); [apply quiet_ret|apply quiet_raise].
Qed.

Lemma quiet_requests_get (net : Transport) (u : string) (headers : headers_t) :
  sends_at_most 0 (requests_get net u headers).
Proof.
  intros s. unfold requests_get, bind, emit.
  destruct (on_get net u headers); simpl; rewrite posts_app; simpl;
    rewrite app_nil_r; lia.
Qed.

Lemma one_requests_post (net : Transport) (u data : string) (headers : headers_t) :
  sends_at_most 1 (requests_post net u data headers).
Proof.
  intros s. unfold requests_post, bind, emit.
  destruct (on_post net u data headers); simpl; rewrite posts_app; simpl;
    rewrite length_app; simpl; lia.
Qed.

Ltac quiet :=
  repeat first
    [ apply quiet_ret | apply quiet_return | apply quiet_raise | apply quiet_print
    | apply quiet_get_response | apply quiet_raise_for_status
    | apply quiet_response_json | apply quiet_py_items | apply quiet_py_keys
    | apply quiet_py_split_slash | apply quiet_py_last | apply quiet_requests_get
    | apply quiet_when
    | apply quiet_bind; [|intros ?]
    | match goal with
      | |- sends_at_most _ (if ?c then _ else _) => destruct c
      | |- sends_at_most _ (match ?x with Some _ => _ | None => _ end) => destruct x
      end ].

Lemma quiet_find_contributors (items : list (string * Py.value)) :
  sends_at_most 0 (find_contributors items).
Proof.
  induction items as [|[k v] items IH]; unfold find_contributors;
    fold find_contributors; [apply quiet_ret|].
  destruct (String.eqb k "Contributors"); [quiet|exact IH].
Qed.

(** Step 1 only reads. *)
Lemma quiet_fetch (net : Transport) (headers : headers_t) (project_key : string) :
  sends_at_most 0 (fetch_contributor_role_id net headers project_key).
Proof.
  unfold fetch_contributor_role_id. apply sends_try.
  - quiet. apply quiet_find_contributors.
  - intros e h E. destruct e; inversion E; subst h; quiet.
Qed.

(** Step 2 writes once at most. *)
Lemma one_post_membership
    (net : Transport) (headers : headers_t) (user_to_add project_key id : string) :
  sends_at_most 1 (post_membership net headers user_to_add project_key id).
Proof.
  unfold post_membership. cbv zeta. apply quiet_bind; [apply quiet_print|intros _].
  apply sends_try.
  - apply (sends_bind 1 0); [apply one_requests_post|intros _; quiet].
  - intros e h E. destruct e; inversion E; subst h; quiet.
Qed.

Lemma one_add_user_to_jira_role
    (token : option string) (net : Transport) (user_to_add project_key : string) :
  sends_at_most 1 (add_user_to_jira_role token net user_to_add project_key).
Proof.
  unfold add_user_to_jira_role. destruct (negb (Py.opt_truthy token)).
  - apply (sends_weaken 0 1); [lia|quiet].
  - cbv zeta. apply quiet_bind; [apply quiet_print|intros _].
    apply quiet_bind; [apply quiet_fetch|intros id].
    apply one_post_membership.
Qed.

End Counting.

(** ** Facts shared by the properties below *)

Section Shared.

Lemma str_truthy_nonempty (s : string) : s <> "" -> Py.str_truthy s = true.
Proof. destruct s; [contradiction|reflexivity]. Qed.

Lemma numeric_truthy (s : string) : numeric s = true -> Py.str_truthy s = true.
Proof. unfold numeric. intros H. apply andb_true_iff in H. tauto. Qed.

Lemma numeric_no_slash (s : string) : numeric s = true -> contains slash s = false.
Proof.
  unfold numeric. intros H. apply andb_true_iff in H.
  apply all_digits_no_slash. tauto.
Qed.

Lemma environ_get_absent (environ : list (string * string)) (name : string) :
  ~ In name (map fst environ) -> environ_get environ name = None.
Proof.
  induction environ as [|[k v] environ IH]; simpl; intros H; [reflexivity|].
  destruct (String.eqb k name) eqn:E.
  - apply String.eqb_eq in E. exfalso. apply H. left. exact E.
  - apply IH. intros Hin. apply H. right. exact Hin.
Qed.

Lemma quiet_from_empty {A : Type} (m : M A) (s : state) :
  sends_at_most 0 m -> posts (trace s) = [] -> posts (trace (snd (m s))) = [].
Proof.
  intros H E. specialize (H s). rewrite E in H. simpl in H.
  destruct (posts (trace (snd (m s)))); [reflexivity|simpl in H; lia].
Qed.

(** Whatever the tracker answers, step 2 adds exactly its one request. *)
Lemma posts_post_membership
    (net : Transport) (token user_to_add project_key id : string) (s : state) :
  posts (trace (snd (post_membership net (headers_of token) user_to_add project_key id s)))
  = (posts (trace s) ++ [membership_post token user_to_add project_key id])%list.
Proof.
  destruct (on_post net (add_user_url_of project_key id)
              (Json.dumps_singleton_list_dict "user" user_to_add) (headers_of token))
    as [r|msg|msg] eqn:E.
  - assert (Hst : 400 <= status_code r < 600 \/ ~ (400 <= status_code r < 600)) by lia.
    destruct Hst as [Hst|Hst].
    + rewrite (post_http_error _ _ _ _ _ s r E Hst). cbv zeta.
      destruct (Py.str_truthy (text r)); simpl; rewrite !posts_app; simpl;
        rewrite ?app_nil_r; reflexivity.
    + rewrite (post_accepted _ _ _ _ _ s r E Hst). simpl. rewrite !posts_app. simpl.
      rewrite ?app_nil_r. reflexivity.
  - rewrite (post_request_failed _ _ _ _ _ s msg E). simpl. rewrite !posts_app. simpl.
    rewrite ?app_nil_r. reflexivity.
  - rewrite (post_crashed _ _ _ _ _ s msg E). simpl. rewrite !posts_app. simpl.
    rewrite ?app_nil_r. reflexivity.
Qed.

(** With a usable token the call is step 1 from a trace without requests,
    followed by step 2 when step 1 resolved the role. *)
Lemma call_cases (net : Transport) (token user_to_add project_key : string) :
  Py.str_truthy token = true ->
  exists c s1,
    fetch_contributor_role_id net (headers_of token) project_key
      (printed initial (msg_fetching project_key)) = (c, s1) /\
    posts (trace s1) = [] /\
    match c with
    | Normal id =>
        call (Some token) net user_to_add project_key
        = post_membership net (headers_of token) user_to_add project_key id s1
    | Return b => call (Some token) net user_to_add project_key = (Return b, s1)
    | Raise e => call (Some token) net user_to_add project_key = (Raise e, s1)
    end.
Proof.
  intros Ht.
  destruct (fetch_contributor_role_id net (headers_of token) project_key
              (printed initial (msg_fetching project_key))) as [c s1] eqn:F.
  exists c, s1. split; [reflexivity|]. split.
  - change s1 with (snd (c, s1)). rewrite <- F.
    apply quiet_from_empty; [apply quiet_fetch|reflexivity].
  - rewrite (call_with_token _ _ _ token Ht).
    destruct c; [apply bind_normal|apply bind_return|apply bind_raise]; exact F.
Qed.

(** The state step 1 reaches when the directory has the entry. *)
Lemma fetch_entry
    (net : Transport) (token project_key : string)
    (items : list (string * Py.value)) (v : string) (s : state) :
  fetch_returns net token project_key items ->
  role_directory items ->
  In ("Contributors", Py.VStr v) items ->
  exists r id,
    Py.last_item (Py.split slash v) = Some id /\
    find_contributors items
      (received (sent s (EvGet (roles_url_of project_key) (headers_of token))) r)
    = (Normal (Some id),
       printed (received (sent s (EvGet (roles_url_of project_key) (headers_of token))) r)
               (msg_found id)) /\
    on_get net (roles_url_of project_key) (headers_of token) = Responded r /\
    ~ (400 <= status_code r < 600) /\
    json r = inl (Py.VDict items).
Proof.
  intros [r [Hget [Hst Hj]]] Hd Hin.
  destruct (find_contributors_entry items v
              (received (sent s (EvGet (roles_url_of project_key) (headers_of token))) r)
              Hd Hin) as [id [Hid Hloop]].
  exists r, id. repeat split; assumption.
Qed.

End Shared.

(** ** The body of the write request, read back *)

Section BodyFacts.

(** What [Json.escape_char] writes for [c] reads back as [c]. *)
Lemma read_chars_escape_char (c : ascii) (tail : string) :
  JsonText.read_chars JsonText.Plain (Json.escape_char c ++ tail)
  = match JsonText.read_chars JsonText.Plain tail with
    | Some (denoted, after) => Some (String c denoted, after)
    | None => None
    end.
Proof.
  destruct c as [[] [] [] [] [] [] [] []]; reflexivity.
Qed.

Lemma read_chars_escape (s after : string) :
  JsonText.read_chars JsonText.Plain (Json.escape s ++ String dquote after)
  = Some (s, after).
Proof.
  induction s as [|c s IH].
  - reflexivity.
  - change (Json.escape (String c s)) with (Json.escape_char c ++ Json.escape s).
    rewrite append_assoc, read_chars_escape_char, IH. reflexivity.
Qed.

(** [json.dumps(s)] followed by anything reads back as [s] and the rest. *)
Lemma read_literal_dumps_str (s after : string) :
  JsonText.read_literal (Json.dumps_str s ++ after) = Some (s, after).
Proof.
  unfold Json.dumps_str.
  change (String dquote (Json.escape s ++ String dquote "") ++ after)
    with (String dquote ((Json.escape s ++ String dquote "") ++ after)).
  rewrite append_assoc.
  change (String dquote "" ++ after) with (String dquote after).
  unfold JsonText.read_literal. rewrite Ascii.eqb_refl. apply read_chars_escape.
Qed.

(** The document the script serialises reads back as its key and string. *)
Lemma read_dumps_singleton_list_dict (k s : string) :
  JsonText.read_singleton_list_dict (Json.dumps_singleton_list_dict k s) = Some (k, s).
Proof.
  unfold Json.dumps_singleton_list_dict, JsonText.read_singleton_list_dict.
  change (JsonText.strip "{" ("{" ++ Json.dumps_str k ++ ": [" ++ Json.dumps_str s ++ "]}"))
    with (Some (Json.dumps_str k ++ ": [" ++ Json.dumps_str s ++ "]}")).
  cbv beta iota. rewrite read_literal_dumps_str. cbv beta iota.
  change (JsonText.strip ": [" (": [" ++ Json.dumps_str s ++ "]}"))
    with (Some (Json.dumps_str s ++ "]}")).
  cbv beta iota. rewrite read_literal_dumps_str. reflexivity.
Qed.

Lemma escape_char_plain (c : ascii) :
  plain c = true -> Json.escape_char c = String c EmptyString.
Proof.
  destruct c as [[] [] [] [] [] [] [] []]; intros H;
    first [discriminate H | reflexivity].
Qed.

(** A string of plain characters is written as it is. *)
Lemma escape_plain (s : string) : all_plain s = true -> Json.escape s = s.
Proof.
  induction s as [|c s IH]; simpl; intros H; [reflexivity|].
  apply andb_true_iff in H. destruct H as [Hc Hs].
  rewrite (escape_char_plain c Hc), (IH Hs). reflexivity.
Qed.

Lemma dumps_plain (k s : string) :
  all_plain k = true -> all_plain s = true ->
  Json.dumps_singleton_list_dict k s = "{" ++ in_quotes k ++ ": [" ++ in_quotes s ++ "]}".
Proof.
  intros Hk Hs. unfold Json.dumps_singleton_list_dict, Json.dumps_str, in_quotes.
  rewrite (escape_plain k Hk), (escape_plain s Hs). reflexivity.
Qed.

End BodyFacts.

(** ** Properties of the specification *)

(** C1. In a Role Directory that has an entry with the key "Contributors",
    the resolution loop yields the part of that entry's value after its
    final '/' as the role identifier (and prints it); in particular a value
    that ends in "/role/10030" yields "10030". *)
Theorem resolve_contributors_role_id
    (items : list (string * Py.value)) (pre id : string) (s : state)
    (Hdir : role_directory items)
    (Hentry : In ("Contributors", Py.VStr (pre ++ "/" ++ id)) items)
    (Hid : contains slash id = false) :
  find_contributors items s = (Normal (Some id), printed s (msg_found id)) /\
  (forall (prefix : string) (s' : state),
      fst (find_contributors [("Contributors", Py.VStr (prefix ++ "/role/10030"))] s')
      = Normal (Some "10030")).
Proof.
  split.
  - destruct (find_contributors_entry items _ s Hdir Hentry) as [id' [Hlast Hloop]].
    rewrite append_slash, (last_segment slash pre id Hid) in Hlast.
    injection Hlast as <-. exact Hloop.
  - intros prefix s'.
    destruct (find_contributors_first [] [] (prefix ++ "/role/10030") s')
      as [id' [Hlast Hloop]]; [intros []|].
    change (prefix ++ "/role/10030") with (prefix ++ "/role" ++ String slash "10030") in Hlast.
    rewrite <- append_assoc in Hlast.
    rewrite (last_segment slash (prefix ++ "/role") "10030") in Hlast by reflexivity.
    injection Hlast as <-. simpl app in Hloop. rewrite Hloop. reflexivity.
Qed.

Lemma resolve_contributors_role_id_witness :
  fst (find_contributors
         [("Contributors",
           Py.VStr "https://issues.apache.org/jira/rest/api/2/project/12310/role/10030")]
         initial)
  = Normal (Some "10030").
Proof.
  apply (f_equal fst
           (proj1 (resolve_contributors_role_id
                     [("Contributors",
                       Py.VStr "https://issues.apache.org/jira/rest/api/2/project/12310/role/10030")]
                     "https://issues.apache.org/jira/rest/api/2/project/12310/role" "10030"
                     initial
                     ltac:(repeat constructor; simpl; tauto)
                     ltac:(left; reflexivity)
                     ltac:(reflexivity)))).
Defined.

(** C2. With a usable credential and a fetched directory that maps
    "Contributors" to a URL whose last segment is the number [R], the call
    sends exactly one write request: to [{base}/rest/api/2/project/{key}/role/R],
    with the header [Authorization: Bearer {token}] and with a body that is
    the JSON text of [{"user": [username]}]: a reader of JSON gives back the
    key "user" and the username, and for a username of plain characters
    the body is, letter for letter, the username between quotes inside
    [{"user": [...]}]. When the answer to that request has a 2xx status the
    call returns [True]. *)
Theorem contributors_write_request
    (net : Transport) (token user_to_add project_key : string)
    (items : list (string * Py.value)) (pre R : string)
    (Htoken : token <> "")
    (Hfetch : fetch_returns net token project_key items)
    (Hdir : role_directory items)
    (Hentry : In ("Contributors", Py.VStr (pre ++ "/" ++ R)) items)
    (HR : numeric R = true) :
  let run := call (Some token) net user_to_add project_key in
  let endpoint := JIRA_URL ++ "/rest/api/2/project/" ++ project_key ++ "/role/" ++ R in
  let headers := [("Content-Type", "application/json"); ("Authorization", "Bearer " ++ token)] in
  exists body,
    posts (trace_of run) = [EvPost endpoint body headers] /\
    JsonText.read_singleton_list_dict body = Some ("user", user_to_add) /\
    (all_plain user_to_add = true ->
     body = "{" ++ in_quotes "user" ++ ": [" ++ in_quotes user_to_add ++ "]}") /\
    (forall r, on_post net endpoint body headers = Responded r ->
               200 <= status_code r < 300 ->
               returned run = Some true).
Proof.
  intros run endpoint headers.
  pose proof (str_truthy_nonempty token Htoken) as Ht.
  destruct (fetch_entry net token project_key items _
              (printed initial (msg_fetching project_key)) Hfetch Hdir Hentry)
    as [r [id [Hlast [Hloop [Hget [Hst Hj]]]]]].
  rewrite append_slash, (last_segment slash pre R (numeric_no_slash R HR)) in Hlast.
  injection Hlast as <-.
  destruct items as [|item items]; [contradiction|].
  pose proof (fetch_resolved net (headers_of token) project_key _ _ r item items R
                Hget Hst Hj Hloop (numeric_truthy R HR)) as Hstep.
  pose proof (call_fetch_normal net user_to_add project_key token R _ Ht Hstep) as Hcall.
  fold run in Hcall.
  exists (Json.dumps_singleton_list_dict "user" user_to_add).
  split; [|split; [|split]].
  - unfold trace_of. rewrite Hcall, posts_post_membership. reflexivity.
  - apply read_dumps_singleton_list_dict.
  - intros Hplain. apply dumps_plain; [reflexivity|exact Hplain].
  - intros r2 Hpost Hok. unfold returned. rewrite Hcall.
    rewrite (post_accepted net token user_to_add project_key R _ r2 Hpost); [reflexivity|lia].
Qed.

(** The end-to-end scenario: project "HDDS", user "alice", role 777, and a
    204 in answer to the write. The body is spelled out. *)
Lemma contributors_write_request_witness :
  let net := Sample.tracker (Responded (Sample.roles_response Sample.hdds_roles))
                            (Responded Sample.no_content) in
  let run := call (Some "secret") net "alice" "HDDS" in
  posts (trace_of run)
  = [EvPost "https://issues.apache.org/jira/rest/api/2/project/HDDS/role/777"
            (String "{" (String dquote ("user" ++ String dquote (": ["
               ++ String dquote ("alice" ++ String dquote "]}")))))
            [("Content-Type", "application/json"); ("Authorization", "Bearer secret")]] /\
  returned run = Some true.
Proof.
  intros net run.
  destruct (contributors_write_request net "secret" "alice" "HDDS" Sample.hdds_roles
              "https://issues.apache.org/jira/rest/api/2/project/12318021/role" "777"
              ltac:(discriminate)
              ltac:(exists (Sample.roles_response Sample.hdds_roles);
                    repeat split; simpl; lia)
              ltac:(unfold role_directory; simpl; repeat constructor; simpl;
                    intuition discriminate)
              ltac:(left; reflexivity)
              ltac:(reflexivity)) as [body [Hposts [_ [Hplain Hreturned]]]].
  pose proof (Hplain eq_refl) as Hbody. subst body.
  split; [exact Hposts|].
  apply (Hreturned Sample.no_content); [reflexivity|simpl; lia].
Defined.

(** C3. With a fetched, non-empty directory that has no key "Contributors",
    the call reports that the role was not found, lists every key of the
    directory as the available roles, returns [False] and sends no write
    request. *)
Theorem role_not_found_reports_keys
    (net : Transport) (token user_to_add project_key : string)
    (items : list (string * Py.value))
    (Htoken : token <> "")
    (Hfetch : fetch_returns net token project_key items)
    (Hnonempty : items <> [])
    (Habsent : ~ In "Contributors" (map fst items)) :
  let run := call (Some token) net user_to_add project_key in
  returned run = Some false /\
  posts (trace_of run) = [] /\
  stdout (trace_of run)
  = [ msg_fetching project_key;
      msg_role_not_found project_key;
      "Available roles: " ++ Py.join ", " (map fst items) ].
Proof.
  intros run. pose proof (str_truthy_nonempty token Htoken) as Ht.
  destruct Hfetch as [r [Hget [Hst Hj]]].
  destruct items as [|item items]; [contradiction|].
  pose proof (fetch_role_missing net (headers_of token) project_key
                (printed initial (msg_fetching project_key)) _ r item items None
                Hget Hst Hj (find_contributors_absent _ _ Habsent) eq_refl) as Hstep.
  pose proof (call_fetch_return net user_to_add project_key token false _ Ht Hstep) as Hcall.
  fold run in Hcall. unfold returned, trace_of. rewrite Hcall.
  repeat split; reflexivity.
Qed.

Lemma role_not_found_reports_keys_witness :
  let net := Sample.tracker (Responded (Sample.roles_response Sample.other_roles))
                            (Responded Sample.no_content) in
  let run := call (Some "secret") net "alice" "HDDS" in
  returned run = Some false /\
  posts (trace_of run) = [] /\
  stdout (trace_of run)
  = [ msg_fetching "HDDS";
      msg_role_not_found "HDDS";
      "Available roles: Administrators, Developers" ].
Proof.
  intros net run.
  apply (role_not_found_reports_keys net "secret" "alice" "HDDS" Sample.other_roles
           ltac:(discriminate)
           ltac:(exists (Sample.roles_response Sample.other_roles);
                 repeat split; simpl; lia)
           ltac:(discriminate)
           ltac:(simpl; intuition discriminate)).
Defined.

(** C4. When the roles fetch succeeds with an empty directory the call
    reports that the project has no roles, returns [False] and sends no
    write request. *)
Theorem empty_directory_fails
    (net : Transport) (token user_to_add project_key : string)
    (Htoken : token <> "")
    (Hfetch : fetch_returns net token project_key []) :
  let run := call (Some token) net user_to_add project_key in
  returned run = Some false /\
  posts (trace_of run) = [] /\
  stdout (trace_of run) = [msg_fetching project_key; msg_no_roles].
Proof.
  intros run. pose proof (str_truthy_nonempty token Htoken) as Ht.
  destruct Hfetch as [r [Hget [Hst Hj]]].
  pose proof (fetch_falsy net (headers_of token) project_key
                (printed initial (msg_fetching project_key)) r _
                Hget Hst Hj eq_refl) as Hstep.
  pose proof (call_fetch_return net user_to_add project_key token false _ Ht Hstep) as Hcall.
  fold run in Hcall. unfold returned, trace_of. rewrite Hcall.
  repeat split; reflexivity.
Qed.

Lemma empty_directory_fails_witness :
  let net := Sample.tracker (Responded (Sample.roles_response []))
                            (Responded Sample.no_content) in
  let run := call (Some "secret") net "alice" "HDDS" in
  returned run = Some false /\
  posts (trace_of run) = [] /\
  stdout (trace_of run) = [msg_fetching "HDDS"; msg_no_roles].
Proof.
  intros net run.
  apply (empty_directory_fails net "secret" "alice" "HDDS"
           ltac:(discriminate)
           ltac:(exists (Sample.roles_response []); repeat split; simpl; lia)).
Defined.

(** C5. When the environment has no variable JIRA_API_TOKEN the call
    returns [False] after two lines of diagnosis and sends no request at
    all, neither a GET nor a POST. *)
Theorem missing_credential_fails_offline
    (environ : list (string * string)) (net : Transport)
    (user_to_add project_key : string)
    (Habsent : ~ In "JIRA_API_TOKEN" (map fst environ)) :
  let run := call (JIRA_API_TOKEN environ) net user_to_add project_key in
  returned run = Some false /\
  requests (trace_of run) = [] /\
  trace_of run = [EvPrint msg_token_not_set; EvPrint msg_export_token].
Proof.
  intros run. unfold run, JIRA_API_TOKEN.
  rewrite (environ_get_absent environ _ Habsent).
  rewrite call_without_token by reflexivity.
  repeat split; reflexivity.
Qed.

Lemma missing_credential_fails_offline_witness :
  let net := Sample.tracker (Responded (Sample.roles_response Sample.hdds_roles))
                            (Responded Sample.no_content) in
  let run := call (JIRA_API_TOKEN [("HOME", "/root"); ("LANG", "C")]) net "alice" "HDDS" in
  returned run = Some false /\
  requests (trace_of run) = [] /\
  trace_of run = [EvPrint msg_token_not_set; EvPrint msg_export_token].
Proof.
  intros net run.
  apply (missing_credential_fails_offline [("HOME", "/root"); ("LANG", "C")] net
           "alice" "HDDS" ltac:(simpl; intuition discriminate)).
Defined.

(** C10. When JIRA_API_TOKEN is set to the empty string the call ends
    exactly as it does without a credential: the same result and the same
    trace, which holds the missing-credential report and no request. *)
Theorem empty_credential_is_missing
    (environ : list (string * string)) (net : Transport)
    (user_to_add project_key : string)
    (Hempty : environ_get environ "JIRA_API_TOKEN" = Some "") :
  let run := call (JIRA_API_TOKEN environ) net user_to_add project_key in
  run = call None net user_to_add project_key /\
  returned run = Some false /\
  requests (trace_of run) = [] /\
  stdout (trace_of run) = [msg_token_not_set; msg_export_token].
Proof.
  intros run. unfold run, JIRA_API_TOKEN. rewrite Hempty.
  rewrite !call_without_token by reflexivity.
  repeat split; reflexivity.
Qed.

Lemma empty_credential_is_missing_witness :
  let net := Sample.tracker (Responded (Sample.roles_response Sample.hdds_roles))
                            (Responded Sample.no_content) in
  let run := call (JIRA_API_TOKEN [("HOME", "/root"); ("JIRA_API_TOKEN", "")])
                  net "alice" "HDDS" in
  run = call None net "alice" "HDDS" /\
  returned run = Some false /\
  requests (trace_of run) = [] /\
  stdout (trace_of run) = [msg_token_not_set; msg_export_token].
Proof.
  intros net run.
  apply (empty_credential_is_missing [("HOME", "/root"); ("JIRA_API_TOKEN", "")] net
           "alice" "HDDS" ltac:(reflexivity)).
Defined.






(** C7, as the specification words it, fails: [raise_for_status] lets every
    status outside 400..599 pass, so an answer 304 to the write request,
    which is not a 2xx, is reported as success. *)
Lemma write_answer_304_reported_success :
  on_post (Sample.tracker (Responded (Sample.roles_response Sample.hdds_roles))
                          (Responded Sample.not_modified))
          (add_user_url_of "HDDS" "777")
          (Json.dumps_singleton_list_dict "user" "alice")
          (headers_of "secret")
  = Responded Sample.not_modified /\
  ~ (200 <= status_code Sample.not_modified < 300) /\
  posts (trace_of (call (Some "secret")
                        (Sample.tracker (Responded (Sample.roles_response Sample.hdds_roles))
                                        (Responded Sample.not_modified))
                        "alice" "HDDS"))
  = [membership_post "secret" "alice" "HDDS" "777"] /\
  returned (call (Some "secret")
                 (Sample.tracker (Responded (Sample.roles_response Sample.hdds_roles))
                                 (Responded Sample.not_modified))
                 "alice" "HDDS")
  = Some true.
Proof.
  split; [reflexivity|]. split; [simpl; lia|]. split; reflexivity.
Qed.

(** C7, amended. Whenever the call has sent the write request and the
    answer to it is a response with a 4xx or 5xx status, the call returns
    [False], prints the failure line with that status, and prints the body
    of the response when it is not empty. *)
Theorem write_error_is_total_failure
    (token : option string) (net : Transport) (user_to_add project_key : string)
    (u d : string) (h : headers_t) (r : Response)
    (Hsent : In (EvPost u d h) (trace_of (call token net user_to_add project_key)))
    (Hanswer : on_post net u d h = Responded r)
    (Hstatus : 400 <= status_code r < 600) :
  let run := call token net user_to_add project_key in
  let out := stdout (trace_of run) in
  returned run = Some false /\
  In (msg_failed_to_add (status_code r)) out /\
  (text r <> "" -> In (msg_jira_response (text r)) out).
Proof.
  intros run out.
  assert (Hfalsy : Py.opt_truthy token = false -> False).
  { intros Hf. unfold trace_of in Hsent.
    rewrite (call_without_token net user_to_add project_key token Hf) in Hsent.
    simpl in Hsent. destruct Hsent as [H|[H|[]]]; discriminate H. }
  destruct token as [tok|]; [|exfalso; apply Hfalsy; reflexivity].
  destruct (Py.str_truthy tok) eqn:Ht; [|exfalso; apply Hfalsy; exact Ht].
  destruct (call_cases net tok user_to_add project_key Ht) as [c [s1 [_ [Hquiet Hcall]]]].
  assert (Hpost : In (EvPost u d h) (posts (trace_of run))).
  { apply filter_In. split; [exact Hsent|reflexivity]. }
  fold run in Hcall. unfold out, returned, trace_of in *.
  destruct c as [id|b|e]; rewrite Hcall in *.
  - rewrite posts_post_membership, Hquiet in Hpost.
    destruct Hpost as [Hpost|[]]. unfold membership_post in Hpost.
    injection Hpost as <- <- <-.
    rewrite (post_http_error net tok user_to_add project_key id s1 r Hanswer Hstatus).
    cbv zeta. split; [reflexivity|]. split.
    + destruct (Py.str_truthy (text r)); simpl; rewrite !stdout_app; simpl;
        repeat (apply in_or_app; first [right; simpl; tauto | left]).
    + intros Htext. rewrite (str_truthy_nonempty _ Htext).
      cbv beta iota delta [snd]. rewrite stdout_printed. apply in_or_app. right. left. reflexivity.
  - simpl in Hpost. rewrite Hquiet in Hpost. contradiction.
  - simpl in Hpost. rewrite Hquiet in Hpost. contradiction.
Qed.

(** The end-to-end failure scenario: a 400 whose body says that alice is a
    member already. *)
Lemma write_error_is_total_failure_witness :
  returned (call (Some "secret")
                 (Sample.tracker (Responded (Sample.roles_response Sample.hdds_roles))
                                 (Responded Sample.bad_request))
                 "alice" "HDDS")
  = Some false /\
  In ("Jira response: " ++ Sample.already_member_body)
     (stdout (trace_of (call (Some "secret")
                             (Sample.tracker
                                (Responded (Sample.roles_response Sample.hdds_roles))
                                (Responded Sample.bad_request))
                             "alice" "HDDS"))).
Proof.
  destruct (write_error_is_total_failure (Some "secret")
              (Sample.tracker (Responded (Sample.roles_response Sample.hdds_roles))
                              (Responded Sample.bad_request))
              "alice" "HDDS"
              (add_user_url_of "HDDS" "777")
              (Json.dumps_singleton_list_dict "user" "alice")
              (headers_of "secret")
              Sample.bad_request
              ltac:(vm_compute; tauto)
              ltac:(reflexivity)
              ltac:(simpl; lia)) as [Hret [_ Hbody]].
  split; [exact Hret|]. apply Hbody. discriminate.
Defined.

(** C8. Whatever the credential, the tracker's answers and the arguments,
    one call sends one write request at most: nothing is retried. *)
Theorem at_most_one_write_request
    (token : option string) (net : Transport) (user_to_add project_key : string) :
  (length (posts (trace_of (call token net user_to_add project_key))) <= 1)%nat.
Proof.
  exact (one_add_user_to_jira_role token net user_to_add project_key initial).
Qed.

(** C9. When the fetched directory has the key "Contributors" with a value
    that ends in '/', the loop finds the entry and extracts the empty
    identifier, and the check that follows takes it for no match: the call
    prints the role-not-found report, returns [False] and sends no write
    request. *)
Theorem dangling_role_url_not_found
    (net : Transport) (token user_to_add project_key : string)
    (items : list (string * Py.value)) (pre : string)
    (Htoken : token <> "")
    (Hfetch : fetch_returns net token project_key items)
    (Hdir : role_directory items)
    (Hentry : In ("Contributors", Py.VStr (pre ++ "/")) items) :
  let run := call (Some token) net user_to_add project_key in
  returned run = Some false /\
  posts (trace_of run) = [] /\
  stdout (trace_of run)
  = [ msg_fetching project_key;
      "Found 'Contributors' role with ID: ";
      msg_role_not_found project_key;
      msg_available_roles (map fst items) ].
Proof.
  intros run. pose proof (str_truthy_nonempty token Htoken) as Ht.
  destruct (fetch_entry net token project_key items _
              (printed initial (msg_fetching project_key)) Hfetch Hdir Hentry)
    as [r [id [Hlast [Hloop [Hget [Hst Hj]]]]]].
  change (pre ++ "/") with (pre ++ String slash "") in Hlast.
  rewrite (last_segment slash pre "" eq_refl) in Hlast. injection Hlast as <-.
  destruct items as [|item items]; [contradiction|].
  pose proof (fetch_role_missing net (headers_of token) project_key _ _ r item items
                (Some "") Hget Hst Hj Hloop eq_refl) as Hstep.
  pose proof (call_fetch_return net user_to_add project_key token false _ Ht Hstep) as Hcall.
  fold run in Hcall. unfold returned, trace_of. rewrite Hcall.
  repeat split; reflexivity.
Qed.

Lemma dangling_role_url_not_found_witness :
  returned (call (Some "secret")
                 (Sample.tracker (Responded (Sample.roles_response Sample.dangling_roles))
                                 (Responded Sample.no_content))
                 "alice" "HDDS")
  = Some false /\
  posts (trace_of (call (Some "secret")
                        (Sample.tracker
                           (Responded (Sample.roles_response Sample.dangling_roles))
                           (Responded Sample.no_content))
                        "alice" "HDDS"))
  = [].
Proof.
  destruct (dangling_role_url_not_found
              (Sample.tracker (Responded (Sample.roles_response Sample.dangling_roles))
                              (Responded Sample.no_content))
              "secret" "alice" "HDDS" Sample.dangling_roles
              "https://issues.apache.org/jira/rest/api/2/project/12318021/role"
              ltac:(discriminate)
              ltac:(exists (Sample.roles_response Sample.dangling_roles);
                    repeat split; simpl; lia)
              ltac:(unfold role_directory; simpl; repeat constructor; simpl;
                    intuition discriminate)
              ltac:(right; left; reflexivity)) as [Hret [Hposts _]].
  split; [exact Hret|exact Hposts].
Defined.

(** ** Beyond the specification: the loop and step 1, read backwards *)

Section Inversion.

(** The three ways the loop can end. *)
Lemma find_contributors_cases (items : list (string * Py.value)) (s : state) :
  (~ In "Contributors" (map fst items) /\
   find_contributors items s = (Normal None, s)) \/
  (exists before w after,
     items = (before ++ ("Contributors", w) :: after)%list /\
     ~ In "Contributors" (map fst before) /\
     match w with
     | Py.VStr v =>
         exists id, Py.last_item (Py.split slash v) = Some id /\
                    find_contributors items s = (Normal (Some id), printed s (msg_found id))
     | _ =>
         find_contributors items s
         = (Raise (AttributeError
                     ("'" ++ Py.type_name w ++ "' object has no attribute 'split'")), s)
     end).
Proof.
  induction items as [|[k w] items IH].
  - left. split; [intros []|reflexivity].
  - destruct (String.eqb k "Contributors") eqn:E.
    + apply String.eqb_eq in E. subst k. right.
      exists [], w, items. split; [reflexivity|]. split; [intros []|].
      destruct w; try (unfold find_contributors; simpl; reflexivity).
      destruct (find_contributors_first [] items s0 s) as [id [Hid Hrun]]; [intros []|].
      exists id. split; assumption.
    + assert (Hk : k <> "Contributors") by (apply String.eqb_neq; exact E).
      assert (Hstep : find_contributors ((k, w) :: items) s = find_contributors items s).
      { unfold find_contributors at 1. rewrite E. reflexivity. }
      destruct IH as [[Habs Hrun]|[before [w' [after [Hitems [Hbefore Hrun]]]]]].
      * left. split; [|rewrite Hstep; exact Hrun].
        simpl. intros [H|H]; [exact (Hk H)|exact (Habs H)].
      * right. exists ((k, w) :: before), w', after.
        split; [rewrite Hitems; reflexivity|].
        split; [simpl; intros [H|H]; [exact (Hk H)|exact (Hbefore H)]|].
        rewrite Hstep. exact Hrun.
Qed.

Variables (net : Transport) (headers : headers_t) (project_key : string).

(** An exception out of the loop leaves step 1 as it is. *)
Lemma fetch_loop_raised
    (s s2 : state) (r : Response) (item : string * Py.value)
    (items : list (string * Py.value)) (msg : string) :
  on_get net (roles_url_of project_key) headers = Responded r ->
  ~ (400 <= status_code r < 600) ->
  json r = inl (Py.VDict (item :: items)) ->
  find_contributors (item :: items)
    (received (sent s (EvGet (roles_url_of project_key) headers)) r)
  = (Raise (AttributeError msg), s2) ->
  fetch_contributor_role_id net headers project_key s = (Raise (AttributeError msg), s2).
Proof.
  intros H Hst Hj Hloop. unfold_step. rewrite H. cbn.
  rewrite (raise_for_status_pass r Hst). unfold ret. cbn. rewrite Hj. cbn.
  unfold received, sent in Hloop. cbn in Hloop. rewrite Hloop. reflexivity.
Qed.

Lemma str_truthy_false (x : string) : Py.str_truthy x = false -> x = "".
Proof. destruct x; [reflexivity|discriminate]. Qed.

Lemma str_truthy_true (x : string) : Py.str_truthy x = true -> x <> "".
Proof. destruct x; [discriminate|intros _; discriminate]. Qed.

(** Step 1 always ends in one of the ways listed by [fetch_path]. *)
Lemma fetch_path_complete (s : state) :
  fetch_path net headers project_key s
    (fetch_contributor_role_id net headers project_key s).
Proof.
  destruct (on_get net (roles_url_of project_key) headers) as [r|msg|msg] eqn:Hget.
  - assert (Hst : 400 <= status_code r < 600 \/ ~ (400 <= status_code r < 600)) by lia.
    destruct Hst as [Hst|Hst].
    { rewrite (fetch_http_error net headers project_key s r Hget Hst).
      eapply path_http_error; eassumption. }
    destruct (json r) as [v|msg] eqn:Hj.
    2:{ rewrite (fetch_bad_json net headers project_key s r msg Hget Hst Hj).
        eapply path_bad_json; eassumption. }
    destruct (Py.truthy v) eqn:Hv.
    2:{ rewrite (fetch_falsy net headers project_key s r v Hget Hst Hj Hv).
        eapply path_falsy; eassumption. }
    assert (Hshape : (exists items, v = Py.VDict items) \/ (forall items, v <> Py.VDict items)).
    { destruct v; try (right; intros items' H; discriminate H). left. eexists. reflexivity. }
    destruct Hshape as [[items ->]|Hshape].
    2:{ rewrite (fetch_not_a_dict net headers project_key s r v Hget Hst Hj Hv Hshape).
        eapply path_not_a_dict; eassumption. }
    destruct items as [|item items]; [discriminate Hv|].
    destruct (find_contributors_cases (item :: items)
                (received (sent s (EvGet (roles_url_of project_key) headers)) r))
      as [[Habs Hrun]|[before [w [after [Hitems [Hbefore Hrun]]]]]].
    + rewrite (fetch_role_missing net headers project_key s _ r item items None
                 Hget Hst Hj Hrun eq_refl).
      eapply path_role_missing; eassumption.
    + assert (Hw : (exists v, w = Py.VStr v) \/ (forall v, w <> Py.VStr v)).
      { destruct w; try (right; intros v' H; discriminate H). left. eexists. reflexivity. }
      destruct Hw as [[v ->]|Hw].
      * destruct Hrun as [id [Hid Hrun]].
        destruct (Py.str_truthy id) eqn:Hidt.
        -- rewrite (fetch_resolved net headers project_key s _ r item items id
                      Hget Hst Hj Hrun Hidt).
           rewrite Hitems in Hj.
           eapply path_resolved; try eassumption. apply str_truthy_true. exact Hidt.
        -- rewrite (fetch_role_missing net headers project_key s _ r item items (Some id)
                      Hget Hst Hj Hrun Hidt).
           rewrite Hitems in Hj. apply str_truthy_false in Hidt. subst id.
           eapply path_role_empty; eassumption.
      * assert (Hraise : find_contributors (item :: items)
                           (received (sent s (EvGet (roles_url_of project_key) headers)) r)
                         = (Raise (AttributeError
                                     ("'" ++ Py.type_name w
                                          ++ "' object has no attribute 'split'")),
                            received (sent s (EvGet (roles_url_of project_key) headers)) r)).
        { destruct w; try exact Hrun. exfalso. exact (Hw s0 eq_refl). }
        rewrite (fetch_loop_raised s _ r item items _ Hget Hst Hj Hraise).
        rewrite Hitems in Hj.
        eapply path_role_not_a_str; eassumption.
  - rewrite (fetch_request_failed net headers project_key s msg Hget).
    apply path_request_failed. exact Hget.
  - rewrite (fetch_crashed net headers project_key s msg Hget).
    apply path_crashed. exact Hget.
Qed.

End Inversion.

(** ** Beyond the specification: the requests of one call *)

Section Requests.

Lemma silent_ret {A : Type} (a : A) : adds_requests [] (ret a).
Proof. intros s. simpl. symmetry. apply app_nil_r. Qed.

Lemma silent_return {A : Type} (b : bool) : adds_requests [] (@return_ A b).
Proof. intros s. simpl. symmetry. apply app_nil_r. Qed.

Lemma silent_raise {A : Type} (e : exn) : adds_requests [] (@raise A e).
Proof. intros s. simpl. symmetry. apply app_nil_r. Qed.

Lemma silent_print (line : string) : adds_requests [] (print line).
Proof. intros s. simpl. rewrite requests_app. reflexivity. Qed.

Lemma silent_when (c : bool) (body : M unit) :
  adds_requests [] body -> adds_requests [] (when c body).
Proof. intros H. destruct c; [exact H|apply silent_ret]. Qed.

(** What follows a block adds nothing: the block decides. *)
Lemma adds_then_silent {A B : Type} (l : list event) (m : M A) (k : A -> M B) :
  adds_requests l m -> (forall x, adds_requests [] (k x)) ->
  adds_requests l (bind m k).
Proof.
  intros Hm Hk s. unfold bind. specialize (Hm s).
  destruct (m s) as [[x|b|e] s1]; simpl in *; try exact Hm.
  rewrite (Hk x s1), app_nil_r. exact Hm.
Qed.

Lemma adds_try {A : Type} (l : list event) (body : M A) (handler : exn -> option (M A)) :
  adds_requests l body ->
  (forall e h, handler e = Some h -> adds_requests [] h) ->
  adds_requests l (try_except body handler).
Proof.
  intros Hb Hh s. unfold try_except. specialize (Hb s).
  destruct (body s) as [[x|b|e] s1]; simpl in *; try exact Hb.
  destruct (handler e) as [h|] eqn:E; simpl; [|exact Hb].
  rewrite (Hh e h E s1), app_nil_r. exact Hb.
Qed.

(** A printed line in front changes nothing. *)
Lemma adds_after_print {A : Type} (l : list event) (line : string) (k : M A) :
  adds_requests l k -> adds_requests l (bind (print line) (fun _ => k)).
Proof.
  intros Hk s. unfold bind, print, emit. simpl. rewrite (Hk _). simpl.
  rewrite requests_app. simpl. rewrite app_nil_r. reflexivity.
Qed.

Lemma silent_get_response : adds_requests [] get_response.
Proof.
  intros s. unfold get_response. destruct (response s); simpl; symmetry; apply app_nil_r.
Qed.

Lemma silent_raise_for_status (r : Response) : adds_requests [] (raise_for_status r).
Proof.
  unfold raise_for_status.
  destruct (Py.str_truthy (http_error_msg r)); [apply silent_raise|apply silent_ret].
Qed.

Lemma silent_response_json (r : Response) : adds_requests [] (response_json r).
Proof. unfold response_json. destruct (json r); [apply silent_ret|apply silent_raise]. Qed.

Lemma silent_py_items (v : Py.value) : adds_requests [] (py_items v).
Proof. destruct v; first [apply silent_ret | apply silent_raise]. Qed.

Lemma silent_py_keys (v : Py.value) : adds_requests [] (py_keys v).
Proof. destruct v; first [apply silent_ret | apply silent_raise]. Qed.

Lemma silent_py_split_slash (v : Py.value) : adds_requests [] (py_split_slash v).
Proof. destruct v; first [apply silent_ret | apply silent_raise]. Qed.

Lemma silent_py_last (l : list string) : adds_requests [] (py_last l).
Proof. unfold py_last. destruct (Py.last_item l); [apply silent_ret|apply silent_raise]. Qed.

Ltac silent :=
  repeat first
    [ apply silent_ret | apply silent_return | apply silent_raise | apply silent_print
    | apply silent_get_response | apply silent_raise_for_status
    | apply silent_response_json | apply silent_py_items | apply silent_py_keys
    | apply silent_py_split_slash | apply silent_py_last | apply silent_when
    | apply adds_then_silent; [|intros ?]
    | match goal with
      | |- adds_requests _ (if ?c then _ else _) => destruct c
      | |- adds_requests _ (match ?x with Some _ => _ | None => _ end) => destruct x
      end ].

Lemma silent_find_contributors (items : list (string * Py.value)) :
  adds_requests [] (find_contributors items).
Proof.
  induction items as [|[k v] items IH]; unfold find_contributors;
    fold find_contributors; [apply silent_ret|].
  destruct (String.eqb k "Contributors"); [silent|exact IH].
Qed.

Lemma adds_requests_get (net : Transport) (u : string) (headers : headers_t) :
  adds_requests [EvGet u headers] (requests_get net u headers).
Proof.
  intros s. unfold requests_get, bind, emit.
  destruct (on_get net u headers); simpl; rewrite requests_app; reflexivity.
Qed.

Lemma adds_requests_post (net : Transport) (u data : string) (headers : headers_t) :
  adds_requests [EvPost u data headers] (requests_post net u data headers).
Proof.
  intros s. unfold requests_post, bind, emit.
  destruct (on_post net u data headers); simpl; rewrite requests_app; reflexivity.
Qed.

(** Step 1 sends the one read request, however it ends. *)
Lemma fetch_sends_the_get (net : Transport) (headers : headers_t) (project_key : string) :
  adds_requests [EvGet (roles_url_of project_key) headers]
    (fetch_contributor_role_id net headers project_key).
Proof.
  unfold fetch_contributor_role_id. apply adds_try.
  - apply adds_then_silent; [apply adds_requests_get|intros _].
    silent. apply silent_find_contributors.
  - intros e h E. destruct e; inversion E; subst h; silent.
Qed.

(** Step 2 sends the one write request, however it ends. *)
Lemma membership_sends_the_post
    (net : Transport) (token user_to_add project_key id : string) :
  adds_requests [membership_post token user_to_add project_key id]
    (post_membership net (headers_of token) user_to_add project_key id).
Proof.
  unfold post_membership. cbv zeta. apply adds_after_print. apply adds_try.
  - apply adds_then_silent; [apply adds_requests_post|intros _]. silent.
  - intros e h E. destruct e; inversion E; subst h; silent.
Qed.

End Requests.

(** X1. The requests of one call are, in this order: none, exactly when
    the token is unusable; or the one GET of the role list; or that GET
    followed by one POST, and then the GET was answered outside 400..599
    with a [dict] whose first "Contributors" entry is a string, and the
    POST goes to the role named by the last piece of that string, which is
    not empty. Both requests carry the token's headers. *)
Theorem request_protocol
    (token : option string) (net : Transport) (user_to_add project_key : string) :
  let sent_ := requests (trace_of (call token net user_to_add project_key)) in
  (Py.opt_truthy token = false /\ sent_ = []) \/
  (exists tok, token = Some tok /\ tok <> "" /\
     (sent_ = [EvGet (roles_url_of project_key) (headers_of tok)] \/
      exists r before v after id,
        on_get net (roles_url_of project_key) (headers_of tok) = Responded r /\
        ~ (400 <= status_code r < 600) /\
        json r = inl (Py.VDict (before ++ ("Contributors", Py.VStr v) :: after)) /\
        ~ In "Contributors" (map fst before) /\
        Py.last_item (Py.split slash v) = Some id /\
        id <> "" /\
        sent_ = [ EvGet (roles_url_of project_key) (headers_of tok);
                  EvPost (add_user_url_of project_key id)
                         (Json.dumps_singleton_list_dict "user" user_to_add)
                         (headers_of tok) ])).
Proof.
  intros sent_. unfold sent_, trace_of.
  destruct (Py.opt_truthy token) eqn:Htok.
  2:{ left. split; [reflexivity|].
      rewrite (call_without_token net user_to_add project_key token Htok). reflexivity. }
  right. destruct token as [tok|]; [|discriminate Htok]. simpl in Htok.
  exists tok. split; [reflexivity|]. split; [apply str_truthy_true; exact Htok|].
  rewrite (call_with_token net user_to_add project_key tok Htok).
  pose proof (fetch_sends_the_get net (headers_of tok) project_key
                (printed initial (msg_fetching project_key))) as Hget.
  pose proof (fetch_path_complete net (headers_of tok) project_key
                (printed initial (msg_fetching project_key))) as Hpath.
  unfold bind.
  destruct (fetch_contributor_role_id net (headers_of tok) project_key
              (printed initial (msg_fetching project_key))) as [[id|b|e] s1] eqn:F;
    simpl in Hget; try (left; exact Hget).
  right. inversion Hpath; subst.
  match goal with
  | Hg : on_get _ _ _ = Responded ?r0, Hl : Py.last_item (Py.split slash ?v0) = Some id,
    Hj : json ?r0 = inl (Py.VDict (?b0 ++ _ :: ?a0)) |- _ =>
      exists r0, b0, v0, a0, id
  end.
  repeat (split; [assumption|]).
  rewrite (membership_sends_the_post net tok user_to_add project_key id _).
  reflexivity.
Qed.

(** X2. [True] is returned only after a complete exchange: the token is
    usable, the read request was answered outside 400..599 with a [dict]
    whose first "Contributors" entry is a string with a non-empty last
    segment, the write request for that segment was answered outside
    400..599, and the four progress lines are all that was printed. *)
Theorem success_means_added
    (token : option string) (net : Transport) (user_to_add project_key : string)
    (Htrue : returned (call token net user_to_add project_key) = Some true) :
  exists tok r before v after id r2,
    token = Some tok /\ tok <> "" /\
    on_get net (roles_url_of project_key) (headers_of tok) = Responded r /\
    ~ (400 <= status_code r < 600) /\
    json r = inl (Py.VDict (before ++ ("Contributors", Py.VStr v) :: after)) /\
    ~ In "Contributors" (map fst before) /\
    Py.last_item (Py.split slash v) = Some id /\ id <> "" /\
    on_post net (add_user_url_of project_key id)
            (Json.dumps_singleton_list_dict "user" user_to_add) (headers_of tok)
    = Responded r2 /\
    ~ (400 <= status_code r2 < 600) /\
    stdout (trace_of (call token net user_to_add project_key))
    = [ msg_fetching project_key; msg_found id;
        msg_adding user_to_add id project_key; msg_success user_to_add ].
Proof.
  unfold returned, trace_of in *.
  destruct (Py.opt_truthy token) eqn:Htok.
  2:{ rewrite (call_without_token net user_to_add project_key token Htok) in Htrue.
      discriminate Htrue. }
  destruct token as [tok|]; [|discriminate Htok]. simpl in Htok.
  rewrite (call_with_token net user_to_add project_key tok Htok) in *.
  pose proof (fetch_path_complete net (headers_of tok) project_key
                (printed initial (msg_fetching project_key))) as Hpath.
  unfold bind in *.
  destruct (fetch_contributor_role_id net (headers_of tok) project_key
              (printed initial (msg_fetching project_key))) as [[id|b|e] s1] eqn:F;
    simpl in Htrue.
  - inversion Hpath; subst.
    match goal with
    | Hg : on_get _ _ _ = Responded ?r0, Hl : Py.last_item (Py.split slash ?v0) = Some id,
      Hj : json ?r0 = inl (Py.VDict (?b0 ++ _ :: ?a0)) |- _ =>
        rename r0 into r; rename v0 into v; rename b0 into before; rename a0 into after
    end.
    destruct (on_post net (add_user_url_of project_key id)
                (Json.dumps_singleton_list_dict "user" user_to_add) (headers_of tok))
      as [r2|msg|msg] eqn:Hpost.
    + assert (Hst2 : 400 <= status_code r2 < 600 \/ ~ (400 <= status_code r2 < 600)) by lia.
      destruct Hst2 as [Hst2|Hst2].
      * rewrite (post_http_error net tok user_to_add project_key id _ r2 Hpost Hst2) in Htrue.
        discriminate Htrue.
      * rewrite (post_accepted net tok user_to_add project_key id _ r2 Hpost Hst2).
        exists tok, r, before, v, after, id, r2.
        repeat (split; [first [reflexivity | assumption | apply str_truthy_true; exact Htok]|]).
        reflexivity.
    + rewrite (post_request_failed net tok user_to_add project_key id _ msg Hpost) in Htrue.
      discriminate Htrue.
    + rewrite (post_crashed net tok user_to_add project_key id _ msg Hpost) in Htrue.
      discriminate Htrue.
  - injection Htrue as ->. inversion Hpath.
  - discriminate Htrue.
Qed.

Lemma success_means_added_witness :
  exists id r2,
    on_post Scenario.happy (add_user_url_of "HDDS" id)
            (Json.dumps_singleton_list_dict "user" "alice") (headers_of "secret")
    = Responded r2 /\
    stdout (trace_of (call (Some "secret") Scenario.happy "alice" "HDDS"))
    = [ msg_fetching "HDDS"; msg_found id; msg_adding "alice" id "HDDS"; msg_success "alice" ].
Proof.
  destruct (success_means_added (Some "secret") Scenario.happy "alice" "HDDS" eq_refl)
    as [tok [r [before [v [after [id [r2 [Htok [_ [_ [_ [_ [_ [_ [_ [Hpost [_ Hout]]]]]]]]]]]]]]]]].
  injection Htok as <-. exists id, r2. split; [exact Hpost|exact Hout].
Defined.



(** X4. Any falsy document in answer to the read request, not only the
    empty [dict] ([null], [false], [0], [0.0], the empty string, the empty
    list), is reported as a project without roles: the call returns [False]
    and sends no write request. *)
Theorem falsy_document_has_no_roles
    (net : Transport) (token user_to_add project_key : string)
    (r : Response) (v : Py.value)
    (Htoken : token <> "")
    (Hget : on_get net (roles_url_of project_key) (headers_of token) = Responded r)
    (Hstatus : ~ (400 <= status_code r < 600))
    (Hjson : json r = inl v)
    (Hfalsy : Py.truthy v = false) :
  let run := call (Some token) net user_to_add project_key in
  returned run = Some false /\
  posts (trace_of run) = [] /\
  stdout (trace_of run) = [msg_fetching project_key; msg_no_roles].
Proof.
  intros run. pose proof (str_truthy_nonempty token Htoken) as Ht.
  pose proof (fetch_falsy net (headers_of token) project_key
                (printed initial (msg_fetching project_key)) r v
                Hget Hstatus Hjson Hfalsy) as Hstep.
  pose proof (call_fetch_return net user_to_add project_key token false _ Ht Hstep) as Hcall.
  fold run in Hcall. unfold returned, trace_of. rewrite Hcall.
  repeat split; reflexivity.
Qed.

Lemma falsy_document_has_no_roles_witness :
  returned (call (Some "secret")
                 (Sample.tracker (Responded (Scenario.answered (Py.VList [])))
                                 (Responded Sample.no_content))
                 "alice" "HDDS")
  = Some false.
Proof.
  apply (falsy_document_has_no_roles
           (Sample.tracker (Responded (Scenario.answered (Py.VList [])))
                           (Responded Sample.no_content))
           "secret" "alice" "HDDS" (Scenario.answered (Py.VList [])) (Py.VList [])
           ltac:(discriminate) ltac:(reflexivity) ltac:(simpl; lia)
           ltac:(reflexivity) ltac:(reflexivity)).
Defined.

(** X5. A truthy document that is not a [dict] (a non-empty list or string,
    a non-zero number, [true]) makes the call end with an uncaught
    [AttributeError] for [items]: nothing is returned, nothing more is
    printed and no write request is sent. *)
Theorem non_dict_document_raises
    (net : Transport) (token user_to_add project_key : string)
    (r : Response) (v : Py.value)
    (Htoken : token <> "")
    (Hget : on_get net (roles_url_of project_key) (headers_of token) = Responded r)
    (Hstatus : ~ (400 <= status_code r < 600))
    (Hjson : json r = inl v)
    (Htruthy : Py.truthy v = true)
    (Hshape : forall items, v <> Py.VDict items) :
  let run := call (Some token) net user_to_add project_key in
  fst run = Raise (AttributeError
                     ("'" ++ Py.type_name v ++ "' object has no attribute 'items'")) /\
  returned run = None /\
  posts (trace_of run) = [] /\
  stdout (trace_of run) = [msg_fetching project_key].
Proof.
  intros run. pose proof (str_truthy_nonempty token Htoken) as Ht.
  pose proof (fetch_not_a_dict net (headers_of token) project_key
                (printed initial (msg_fetching project_key)) r v
                Hget Hstatus Hjson Htruthy Hshape) as Hstep.
  assert (Hcall : run = (Raise (AttributeError
                                  ("'" ++ Py.type_name v
                                       ++ "' object has no attribute 'items'")),
                         received (sent (printed initial (msg_fetching project_key))
                                     (EvGet (roles_url_of project_key) (headers_of token))) r)).
  { unfold run. rewrite (call_with_token net user_to_add project_key token Ht).
    apply bind_raise. exact Hstep. }
  unfold returned, trace_of. rewrite Hcall. repeat split; reflexivity.
Qed.

Lemma non_dict_document_raises_witness :
  fst (call (Some "secret")
            (Sample.tracker (Responded (Scenario.answered (Py.VList [Py.VStr "Contributors"])))
                            (Responded Sample.no_content))
            "alice" "HDDS")
  = Raise (AttributeError "'list' object has no attribute 'items'").
Proof.
  apply (non_dict_document_raises
           (Sample.tracker (Responded (Scenario.answered (Py.VList [Py.VStr "Contributors"])))
                           (Responded Sample.no_content))
           "secret" "alice" "HDDS"
           (Scenario.answered (Py.VList [Py.VStr "Contributors"]))
           (Py.VList [Py.VStr "Contributors"])
           ltac:(discriminate) ltac:(reflexivity) ltac:(simpl; lia)
           ltac:(reflexivity) ltac:(reflexivity) ltac:(discriminate)).
Defined.

Section Extraction.

(** A string that has the separator splits at its last occurrence. *)
Lemma last_occurrence (c : ascii) (v : string) :
  contains c v = true ->
  exists pre post, v = pre ++ String c post /\ contains c post = false.
Proof.
  induction v as [|a v IH]; simpl; intros H; [discriminate H|].
  destruct (contains c v) eqn:Hv.
  - destruct (IH eq_refl) as [pre [post [E Hpost]]].
    exists (String a pre), post. split; [simpl; rewrite <- E; reflexivity|exact Hpost].
  - rewrite orb_false_r in H. apply Ascii.eqb_eq in H. subst a.
    exists "", v. split; [reflexivity|exact Hv].
Qed.

(** [v.split('/')[-1]] is the part of [v] after its last '/', or the whole
    of [v] when it has none. *)
Lemma last_piece (v id : string) :
  Py.last_item (Py.split slash v) = Some id ->
  contains slash id = false /\ (v = id \/ exists pre, v = pre ++ "/" ++ id).
Proof.
  intros H. destruct (contains slash v) eqn:Hv.
  - destruct (last_occurrence slash v Hv) as [pre [post [E Hpost]]].
    rewrite E, (last_segment slash pre post Hpost) in H. injection H as <-.
    split; [exact Hpost|]. right. exists pre. exact E.
  - rewrite (split_no_sep slash v Hv) in H. injection H as <-.
    split; [exact Hv|]. left. reflexivity.
Qed.

(** A first "Contributors" entry whose value is no string stops the loop. *)
Lemma find_contributors_first_not_a_str
    (before after : list (string * Py.value)) (w : Py.value) (s : state) :
  ~ In "Contributors" (map fst before) ->
  (forall v, w <> Py.VStr v) ->
  find_contributors (before ++ ("Contributors", w) :: after) s
  = (Raise (AttributeError ("'" ++ Py.type_name w ++ "' object has no attribute 'split'")), s).
Proof.
  intros Hb Hw. induction before as [|[k x] before IH].
  - destruct w; try reflexivity. exfalso. exact (Hw s0 eq_refl).
  - destruct (String.eqb k "Contributors") eqn:E.
    + apply String.eqb_eq in E. exfalso. apply Hb. left. exact E.
    + transitivity (find_contributors (before ++ ("Contributors", w) :: after) s).
      * change (((k, x) :: before) ++ ("Contributors", w) :: after)%list
          with ((k, x) :: (before ++ ("Contributors", w) :: after))%list.
        unfold find_contributors at 1. rewrite E. reflexivity.
      * apply IH. intros Hin. apply Hb. right. exact Hin.
Qed.

End Extraction.

(** X6. When the value under "Contributors" is not a string (a number, a
    nested object, [null]), the call ends with an uncaught
    [AttributeError] for [split]: nothing is returned and no write request
    is sent. *)
Theorem role_value_not_a_string_raises
    (net : Transport) (token user_to_add project_key : string)
    (items : list (string * Py.value)) (w : Py.value)
    (Htoken : token <> "")
    (Hfetch : fetch_returns net token project_key items)
    (Hdir : role_directory items)
    (Hentry : In ("Contributors", w) items)
    (Hvalue : forall v, w <> Py.VStr v) :
  let run := call (Some token) net user_to_add project_key in
  fst run = Raise (AttributeError
                     ("'" ++ Py.type_name w ++ "' object has no attribute 'split'")) /\
  returned run = None /\
  posts (trace_of run) = [] /\
  stdout (trace_of run) = [msg_fetching project_key].
Proof.
  intros run. pose proof (str_truthy_nonempty token Htoken) as Ht.
  destruct Hfetch as [r [Hget [Hst Hj]]].
  destruct (entry_is_first items _ _ Hdir Hentry) as [before [after [E Hb]]].
  destruct items as [|item items]; [contradiction|].
  pose proof (find_contributors_first_not_a_str before after w
                (received (sent (printed initial (msg_fetching project_key))
                            (EvGet (roles_url_of project_key) (headers_of token))) r)
                Hb Hvalue) as Hloop.
  rewrite <- E in Hloop.
  pose proof (fetch_loop_raised net (headers_of token) project_key _ _ r item items _
                Hget Hst Hj Hloop) as Hstep.
  assert (Hcall : run = (Raise (AttributeError
                                  ("'" ++ Py.type_name w
                                       ++ "' object has no attribute 'split'")),
                         received (sent (printed initial (msg_fetching project_key))
                                     (EvGet (roles_url_of project_key) (headers_of token))) r)).
  { unfold run. rewrite (call_with_token net user_to_add project_key token Ht).
    apply bind_raise. exact Hstep. }
  unfold returned, trace_of. rewrite Hcall. repeat split; reflexivity.
Qed.

Lemma role_value_not_a_string_raises_witness :
  fst (call (Some "secret")
            (Sample.tracker (Responded (Sample.roles_response Scenario.numbered_roles))
                            (Responded Sample.no_content))
            "alice" "HDDS")
  = Raise (AttributeError "'int' object has no attribute 'split'").
Proof.
  apply (role_value_not_a_string_raises
           (Sample.tracker (Responded (Sample.roles_response Scenario.numbered_roles))
                           (Responded Sample.no_content))
           "secret" "alice" "HDDS" Scenario.numbered_roles (Py.VInt 10030)
           ltac:(discriminate)
           ltac:(exists (Sample.roles_response Scenario.numbered_roles);
                 repeat split; simpl; lia)
           ltac:(unfold role_directory; simpl; repeat constructor; simpl;
                 intuition discriminate)
           ltac:(right; left; reflexivity)
           ltac:(discriminate)).
Defined.

(** X7. For any string under "Contributors", with or without a '/', the
    loop yields an identifier that has no '/' and is either the whole value
    (when the value has no '/') or what follows its last '/'. *)
Theorem resolved_id_is_last_piece
    (items : list (string * Py.value)) (v : string) (s : state)
    (Hdir : role_directory items)
    (Hentry : In ("Contributors", Py.VStr v) items) :
  exists id,
    fst (find_contributors items s) = Normal (Some id) /\
    contains slash id = false /\
    (v = id \/ exists pre, v = pre ++ "/" ++ id).
Proof.
  destruct (find_contributors_entry items v s Hdir Hentry) as [id [Hlast Hrun]].
  exists id. split; [rewrite Hrun; reflexivity|]. exact (last_piece v id Hlast).
Qed.

Lemma resolved_id_is_last_piece_witness :
  exists id,
    fst (find_contributors Scenario.opaque_roles initial) = Normal (Some id) /\
    contains slash id = false /\
    ("abc" = id \/ exists pre, "abc" = pre ++ "/" ++ id).
Proof.
  apply (resolved_id_is_last_piece Scenario.opaque_roles "abc" initial
           ltac:(unfold role_directory; simpl; repeat constructor; simpl; tauto)
           ltac:(left; reflexivity)).
Defined.

(** X8. The identifier is not checked to be a number: whenever the last
    piece of the "Contributors" value is not empty, whatever its
    characters, the call announces it and sends the one write request to
    the role path that ends in it. *)
Theorem any_nonempty_id_is_posted
    (net : Transport) (token user_to_add project_key : string)
    (items : list (string * Py.value)) (v id : string)
    (Htoken : token <> "")
    (Hfetch : fetch_returns net token project_key items)
    (Hdir : role_directory items)
    (Hentry : In ("Contributors", Py.VStr v) items)
    (Hlast : Py.last_item (Py.split slash v) = Some id)
    (Hid : id <> "") :
  let run := call (Some token) net user_to_add project_key in
  requests (trace_of run)
  = [ EvGet (roles_url_of project_key) (headers_of token);
      EvPost (JIRA_URL ++ "/rest/api/2/project/" ++ project_key ++ "/role/" ++ id)
             (Json.dumps_singleton_list_dict "user" user_to_add)
             (headers_of token) ] /\
  firstn 3 (stdout (trace_of run))
  = [ msg_fetching project_key; msg_found id; msg_adding user_to_add id project_key ].
Proof.
  intros run. pose proof (str_truthy_nonempty token Htoken) as Ht.
  destruct (fetch_entry net token project_key items v
              (printed initial (msg_fetching project_key)) Hfetch Hdir Hentry)
    as [r [id' [Hlast' [Hloop [Hget [Hst Hj]]]]]].
  rewrite Hlast in Hlast'. injection Hlast' as <-.
  destruct items as [|item items]; [contradiction|].
  pose proof (fetch_resolved net (headers_of token) project_key _ _ r item items id
                Hget Hst Hj Hloop (str_truthy_nonempty id Hid)) as Hstep.
  pose proof (call_fetch_normal net user_to_add project_key token id _ Ht Hstep) as Hcall.
  fold run in Hcall. unfold trace_of. rewrite Hcall. split.
  - rewrite (membership_sends_the_post net token user_to_add project_key id). reflexivity.
  - destruct (on_post net (add_user_url_of project_key id)
                (Json.dumps_singleton_list_dict "user" user_to_add) (headers_of token))
      as [r2|msg|msg] eqn:Hp.
    + assert (Hst2 : 400 <= status_code r2 < 600 \/ ~ (400 <= status_code r2 < 600)) by lia.
      destruct Hst2 as [Hst2|Hst2].
      * rewrite (post_http_error net token user_to_add project_key id _ r2 Hp Hst2).
        cbv zeta. destruct (Py.str_truthy (text r2)); reflexivity.
      * rewrite (post_accepted net token user_to_add project_key id _ r2 Hp Hst2).
        reflexivity.
    + rewrite (post_request_failed net token user_to_add project_key id _ msg Hp).
      reflexivity.
    + rewrite (post_crashed net token user_to_add project_key id _ msg Hp). reflexivity.
Qed.

Lemma any_nonempty_id_is_posted_witness :
  requests (trace_of (call (Some "secret")
                           (Sample.tracker
                              (Responded (Sample.roles_response Scenario.opaque_roles))
                              (Responded Sample.no_content))
                           "alice" "HDDS"))
  = [ EvGet (roles_url_of "HDDS") (headers_of "secret");
      EvPost "https://issues.apache.org/jira/rest/api/2/project/HDDS/role/abc"
             (Json.dumps_singleton_list_dict "user" "alice")
             (headers_of "secret") ].
Proof.
  apply (any_nonempty_id_is_posted
           (Sample.tracker (Responded (Sample.roles_response Scenario.opaque_roles))
                           (Responded Sample.no_content))
           "secret" "alice" "HDDS" Scenario.opaque_roles "abc" "abc"
           ltac:(discriminate)
           ltac:(exists (Sample.roles_response Scenario.opaque_roles);
                 repeat split; simpl; lia)
           ltac:(unfold role_directory; simpl; repeat constructor; simpl; tauto)
           ltac:(left; reflexivity)
           ltac:(reflexivity)
           ltac:(discriminate)).
Defined.

(** X9. Once the write request has been sent, its answer alone decides how
    the call ends: a response outside 400..599, a 3xx included, gives
    [True]; a response in 400..599 gives [False]; a [RequestException]
    (network, timeout) gives [False] after the line "An error occurred";
    any other exception leaves the function uncaught. *)
Theorem write_answer_decides
    (token : option string) (net : Transport) (user_to_add project_key : string)
    (u d : string) (h : headers_t)
    (Hsent : In (EvPost u d h) (trace_of (call token net user_to_add project_key))) :
  let run := call token net user_to_add project_key in
  match on_post net u d h with
  | Responded r =>
      returned run = Some (negb ((400 <=? status_code r) && (status_code r <? 600)))
  | RequestFailed msg =>
      returned run = Some false /\
      exists id, stdout (trace_of run)
                 = [ msg_fetching project_key; msg_found id;
                     msg_adding user_to_add id project_key; msg_error_occurred msg ]
  | Crashed msg =>
      fst run = Raise (OtherException msg) /\ returned run = None
  end.
Proof.
  intros run.
  assert (Hfalsy : Py.opt_truthy token = false -> False).
  { intros Hf. unfold trace_of in Hsent.
    rewrite (call_without_token net user_to_add project_key token Hf) in Hsent.
    simpl in Hsent. destruct Hsent as [H|[H|[]]]; discriminate H. }
  destruct token as [tok|]; [|exfalso; apply Hfalsy; reflexivity].
  destruct (Py.str_truthy tok) eqn:Ht; [|exfalso; apply Hfalsy; exact Ht].
  destruct (call_cases net tok user_to_add project_key Ht) as [c [s1 [F [Hquiet Hcall]]]].
  pose proof (fetch_path_complete net (headers_of tok) project_key
                (printed initial (msg_fetching project_key))) as Hpath.
  rewrite F in Hpath.
  assert (Hpost : In (EvPost u d h) (posts (trace_of run))).
  { apply filter_In. split; [exact Hsent|reflexivity]. }
  fold run in Hcall. unfold returned, trace_of in *.
  destruct c as [id|b|e]; rewrite Hcall in *.
  2,3: simpl in Hpost; rewrite Hquiet in Hpost; contradiction.
  rewrite posts_post_membership, Hquiet in Hpost.
  destruct Hpost as [Hpost|[]]. unfold membership_post in Hpost.
  injection Hpost as <- <- <-.
  destruct (on_post net (add_user_url_of project_key id)
              (Json.dumps_singleton_list_dict "user" user_to_add) (headers_of tok))
    as [r2|msg|msg] eqn:Hp.
  - assert (Hst2 : 400 <= status_code r2 < 600 \/ ~ (400 <= status_code r2 < 600)) by lia.
    destruct Hst2 as [Hst2|Hst2].
    + rewrite (post_http_error net tok user_to_add project_key id _ r2 Hp Hst2).
      replace ((400 <=? status_code r2) && (status_code r2 <? 600)) with true; [reflexivity|].
      symmetry. apply andb_true_iff. rewrite Z.leb_le, Z.ltb_lt. exact Hst2.
    + rewrite (post_accepted net tok user_to_add project_key id _ r2 Hp Hst2).
      replace ((400 <=? status_code r2) && (status_code r2 <? 600)) with false; [reflexivity|].
      symmetry. apply andb_false_iff. rewrite Z.leb_gt, Z.ltb_ge. lia.
  - rewrite (post_request_failed net tok user_to_add project_key id _ msg Hp).
    split; [reflexivity|]. exists id. inversion Hpath; subst. reflexivity.
  - rewrite (post_crashed net tok user_to_add project_key id _ msg Hp).
    split; reflexivity.
Qed.

Lemma write_answer_decides_witness :
  returned (call (Some "secret") Scenario.write_refused "alice" "HDDS") = Some false /\
  exists id,
    stdout (trace_of (call (Some "secret") Scenario.write_refused "alice" "HDDS"))
    = [ msg_fetching "HDDS"; msg_found id; msg_adding "alice" id "HDDS";
        msg_error_occurred "connection refused" ].
Proof.
  apply (write_answer_decides (Some "secret") Scenario.write_refused "alice" "HDDS"
           (add_user_url_of "HDDS" "777")
           (Json.dumps_singleton_list_dict "user" "alice")
           (headers_of "secret")
           ltac:(vm_compute; tauto)).
Defined.

(** ** Beyond the specification: what reaches standard output *)

Section Console.

Lemma agree_ret {A : Type} (a : A) : agree (ret a) (ret a).
Proof. intros s1 s2 H. split; [reflexivity|exact H]. Qed.

Lemma agree_return {A : Type} (b : bool) : agree (@return_ A b) (return_ b).
Proof. intros s1 s2 H. split; [reflexivity|exact H]. Qed.

Lemma agree_raise {A : Type} (e : exn) : agree (@raise A e) (raise e).
Proof. intros s1 s2 H. split; [reflexivity|exact H]. Qed.

Lemma agree_print (line : string) : agree (print line) (print line).
Proof.
  intros s1 s2 [Hout Hresp]. split; [reflexivity|]. split; simpl.
  - rewrite !stdout_app, Hout. reflexivity.
  - exact Hresp.
Qed.

Lemma agree_bind {A B : Type} (m1 m2 : M A) (k1 k2 : A -> M B) :
  agree m1 m2 -> (forall x, agree (k1 x) (k2 x)) -> agree (bind m1 k1) (bind m2 k2).
Proof.
  intros Hm Hk s1 s2 Hs. destruct (Hm s1 s2 Hs) as [Hc Hs']. unfold bind.
  destruct (m1 s1) as [c1 s1'], (m2 s2) as [c2 s2']. simpl in Hc, Hs'. subst c2.
  destruct c1 as [x|b|e]; [exact (Hk x s1' s2' Hs')|split; [reflexivity|exact Hs']..].
Qed.

Lemma agree_try {A : Type} (b1 b2 : M A) (h1 h2 : exn -> option (M A)) :
  agree b1 b2 ->
  (forall e, match h1 e, h2 e with
             | Some a1, Some a2 => agree a1 a2
             | None, None => True
             | _, _ => False
             end) ->
  agree (try_except b1 h1) (try_except b2 h2).
Proof.
  intros Hb Hh s1 s2 Hs. destruct (Hb s1 s2 Hs) as [Hc Hs']. unfold try_except.
  destruct (b1 s1) as [c1 s1'], (b2 s2) as [c2 s2']. simpl in Hc, Hs'. subst c2.
  destruct c1 as [x|b|e]; try (split; [reflexivity|exact Hs']).
  specialize (Hh e). destruct (h1 e) as [a1|], (h2 e) as [a2|]; try contradiction.
  - exact (Hh s1' s2' Hs').
  - split; [reflexivity|exact Hs'].
Qed.

Lemma agree_when (c : bool) (body : M unit) :
  agree body body -> agree (when c body) (when c body).
Proof. intros H. destruct c; [exact H|apply agree_ret]. Qed.

Lemma agree_get_response : agree get_response get_response.
Proof.
  intros s1 s2 [Hout Hresp]. unfold get_response.
  destruct (response s1) as [r|] eqn:E; rewrite <- Hresp;
    simpl; (split; [reflexivity|split; [exact Hout|congruence]]).
Qed.

Lemma agree_raise_for_status (r : Response) : agree (raise_for_status r) (raise_for_status r).
Proof.
  unfold raise_for_status.
  destruct (Py.str_truthy (http_error_msg r)); [apply agree_raise|apply agree_ret].
Qed.

Lemma agree_response_json (r : Response) : agree (response_json r) (response_json r).
Proof. unfold response_json. destruct (json r); [apply agree_ret|apply agree_raise]. Qed.

Lemma agree_py_items (v : Py.value) : agree (py_items v) (py_items v).
Proof. destruct v; first [apply agree_ret | apply agree_raise]. Qed.

Lemma agree_py_keys (v : Py.value) : agree (py_keys v) (py_keys v).
Proof. destruct v; first [apply agree_ret | apply agree_raise]. Qed.

Lemma agree_py_split_slash (v : Py.value) : agree (py_split_slash v) (py_split_slash v).
Proof. destruct v; first [apply agree_ret | apply agree_raise]. Qed.

Lemma agree_py_last (l : list string) : agree (py_last l) (py_last l).
Proof. unfold py_last. destruct (Py.last_item l); [apply agree_ret|apply agree_raise]. Qed.

Ltac agreeing :=
  repeat first
    [ apply agree_ret | apply agree_return | apply agree_raise | apply agree_print
    | apply agree_get_response | apply agree_raise_for_status
    | apply agree_response_json | apply agree_py_items | apply agree_py_keys
    | apply agree_py_split_slash | apply agree_py_last | apply agree_when
    | apply agree_bind; [|intros ?]
    | match goal with
      | |- agree (if ?c then _ else _) _ => destruct c
      | |- agree (match ?x with Some _ => _ | None => _ end) _ => destruct x
      end ].

Lemma agree_find_contributors (items : list (string * Py.value)) :
  agree (find_contributors items) (find_contributors items).
Proof.
  induction items as [|[k v] items IH]; unfold find_contributors;
    fold find_contributors; [apply agree_ret|].
  destruct (String.eqb k "Contributors"); [agreeing|exact IH].
Qed.

(** Two requests that differ in their headers only, and get the same
    answer, leave the same console. *)
Lemma agree_requests_get (net : Transport) (u : string) (h1 h2 : headers_t) :
  on_get net u h1 = on_get net u h2 ->
  agree (requests_get net u h1) (requests_get net u h2).
Proof.
  intros Hsame s1 s2 [Hout Hresp]. unfold requests_get, bind, emit. rewrite Hsame.
  destruct (on_get net u h2); unfold same_console; simpl; rewrite !stdout_app; simpl;
    rewrite !app_nil_r;
    (split; [reflexivity|split; [assumption|first [reflexivity|assumption]]]).
Qed.

Lemma agree_requests_post (net : Transport) (u d : string) (h1 h2 : headers_t) :
  on_post net u d h1 = on_post net u d h2 ->
  agree (requests_post net u d h1) (requests_post net u d h2).
Proof.
  intros Hsame s1 s2 [Hout Hresp]. unfold requests_post, bind, emit. rewrite Hsame.
  destruct (on_post net u d h2); unfold same_console; simpl; rewrite !stdout_app; simpl;
    rewrite !app_nil_r;
    (split; [reflexivity|split; [assumption|first [reflexivity|assumption]]]).
Qed.

Lemma agree_fetch (net : Transport) (h1 h2 : headers_t) (project_key : string) :
  on_get net (roles_url_of project_key) h1 = on_get net (roles_url_of project_key) h2 ->
  agree (fetch_contributor_role_id net h1 project_key)
        (fetch_contributor_role_id net h2 project_key).
Proof.
  intros Hsame. unfold fetch_contributor_role_id. apply agree_try.
  - apply agree_bind; [apply agree_requests_get; exact Hsame|intros _].
    agreeing. apply agree_find_contributors.
  - intros e. destruct e; try exact I; agreeing.
Qed.

Lemma agree_post_membership
    (net : Transport) (h1 h2 : headers_t) (user_to_add project_key id : string) :
  on_post net (add_user_url_of project_key id)
          (Json.dumps_singleton_list_dict "user" user_to_add) h1
  = on_post net (add_user_url_of project_key id)
            (Json.dumps_singleton_list_dict "user" user_to_add) h2 ->
  agree (post_membership net h1 user_to_add project_key id)
        (post_membership net h2 user_to_add project_key id).
Proof.
  intros Hsame. unfold post_membership. cbv zeta.
  apply agree_bind; [apply agree_print|intros _]. apply agree_try.
  - apply agree_bind; [apply agree_requests_post; exact Hsame|intros _]. agreeing.
  - intros e. destruct e; try exact I; agreeing.
Qed.

End Console.

(** X10. The token takes part in what is printed and in how the call ends
    through the tracker's answers only: two usable tokens to which the
    tracker gives the same answers make the call print the same lines and
    end the same way. The function quotes the tracker's text and the text
    of exceptions as received; apart from that, what it prints does not
    vary with the token. *)
Theorem output_depends_on_answers_only
    (net : Transport) (token1 token2 user_to_add project_key : string)
    (Htoken1 : token1 <> "") (Htoken2 : token2 <> "")
    (Hget : on_get net (roles_url_of project_key) (headers_of token1)
            = on_get net (roles_url_of project_key) (headers_of token2))
    (Hpost : forall id,
        on_post net (add_user_url_of project_key id)
                (Json.dumps_singleton_list_dict "user" user_to_add) (headers_of token1)
        = on_post net (add_user_url_of project_key id)
                  (Json.dumps_singleton_list_dict "user" user_to_add) (headers_of token2)) :
  stdout (trace_of (call (Some token1) net user_to_add project_key))
  = stdout (trace_of (call (Some token2) net user_to_add project_key)) /\
  fst (call (Some token1) net user_to_add project_key)
  = fst (call (Some token2) net user_to_add project_key).
Proof.
  rewrite (call_with_token net user_to_add project_key token1
             (str_truthy_nonempty _ Htoken1)).
  rewrite (call_with_token net user_to_add project_key token2
             (str_truthy_nonempty _ Htoken2)).
  assert (Hagree : agree
            (bind (fetch_contributor_role_id net (headers_of token1) project_key)
                  (fun id => post_membership net (headers_of token1) user_to_add project_key id))
            (bind (fetch_contributor_role_id net (headers_of token2) project_key)
                  (fun id => post_membership net (headers_of token2) user_to_add project_key id))).
  { apply agree_bind; [apply agree_fetch; exact Hget|].
    intros id. apply agree_post_membership. apply Hpost. }
  destruct (Hagree (printed initial (msg_fetching project_key))
                   (printed initial (msg_fetching project_key))
                   (conj eq_refl eq_refl)) as [Hc [Hout _]].
  unfold trace_of. split; [exact Hout|exact Hc].
Qed.

Lemma output_depends_on_answers_only_witness :
  stdout (trace_of (call (Some "secret") Scenario.happy "alice" "HDDS"))
  = stdout (trace_of (call (Some "another") Scenario.happy "alice" "HDDS")).
Proof.
  apply (output_depends_on_answers_only Scenario.happy "secret" "another" "alice" "HDDS"
           ltac:(discriminate) ltac:(discriminate) ltac:(reflexivity)
           ltac:(intros id; reflexivity)).
Defined.

(** ** Beyond the specification: the body of the write request *)

Section Payload.

Lemma all_printable_app (a b : string) :
  all_printable (a ++ b) = all_printable a && all_printable b.
Proof.
  induction a as [|c a IH]; simpl; [reflexivity|].
  rewrite IH, andb_assoc. reflexivity.
Qed.

Lemma escape_char_printable (c : ascii) : all_printable (Json.escape_char c) = true.
Proof.
  destruct c as [[] [] [] [] [] [] [] []]; reflexivity.
Qed.

Lemma escape_printable (s : string) : all_printable (Json.escape s) = true.
Proof.
  induction s as [|c s IH]; simpl; [reflexivity|].
  rewrite all_printable_app, escape_char_printable, IH. reflexivity.
Qed.

(** What [Json.escape_char] wrote can be read back. *)
Lemma unescape_head_escape_char (c : ascii) (rest : string) :
  unescape_head (Json.escape_char c ++ rest) = Some (c, rest).
Proof.
  destruct c as [[] [] [] [] [] [] [] []]; reflexivity.
Qed.

(** What [Json.escape_char] wrote never starts with a bare double quote. *)
Lemma escape_char_head (c : ascii) (rest tail : string) :
  Json.escape_char c ++ rest <> String dquote tail.
Proof.
  destruct c as [[] [] [] [] [] [] [] []]; intros H; discriminate H.
Qed.

Lemma append_cancel_l (a x y : string) : a ++ x = a ++ y -> x = y.
Proof.
  induction a as [|c a IH]; simpl; intros H; [exact H|].
  injection H as H. exact (IH H).
Qed.

(** The escaped text, closed by its double quote, determines the string. *)
Lemma escape_inj (s1 s2 tail1 tail2 : string) :
  Json.escape s1 ++ String dquote tail1 = Json.escape s2 ++ String dquote tail2 ->
  s1 = s2.
Proof.
  revert s2. induction s1 as [|c1 s1 IH]; intros [|c2 s2] H; simpl in H.
  - reflexivity.
  - rewrite append_assoc in H. symmetry in H. exfalso. exact (escape_char_head _ _ _ H).
  - rewrite append_assoc in H. exfalso. exact (escape_char_head _ _ _ H).
  - rewrite !append_assoc in H. apply (f_equal unescape_head) in H.
    rewrite !unescape_head_escape_char in H. injection H as Hc Hrest.
    subst c2. rewrite (IH s2 Hrest). reflexivity.
Qed.

End Payload.

(** X11. Whatever the username, the body of the write request is made of
    printable ASCII characters only: control characters, DEL and the
    characters above 126 are sent as escapes. *)
Theorem payload_is_printable_ascii (user_to_add : string) :
  all_printable (Json.dumps_singleton_list_dict "user" user_to_add) = true.
Proof.
  unfold Json.dumps_singleton_list_dict, Json.dumps_str.
  change (Json.escape "user") with "user".
  repeat (rewrite all_printable_app || simpl all_printable).
  rewrite escape_printable. reflexivity.
Qed.

(** X12. Among usernames made of the code points 0..255, the strings of
    this model, the body of the write request names the user without loss:
    two different usernames never give the same body. (Beyond 255 the
    encoder writes a character above U+FFFF and its surrogate pair alike.) *)
Theorem payload_tells_users_apart
    (user1 user2 : string) (Hdiff : user1 <> user2) :
  Json.dumps_singleton_list_dict "user" user1
  <> Json.dumps_singleton_list_dict "user" user2.
Proof.
  intros H. apply Hdiff. unfold Json.dumps_singleton_list_dict in H.
  apply append_cancel_l, append_cancel_l, append_cancel_l in H.
  unfold Json.dumps_str in H. simpl in H. injection H as H.
  rewrite !append_assoc in H. exact (escape_inj _ _ _ _ H).
Qed.

Lemma payload_tells_users_apart_witness :
  Json.dumps_singleton_list_dict "user" "alice"
  <> Json.dumps_singleton_list_dict "user" "alicia".
Proof.
  apply (payload_tells_users_apart "alice" "alicia" ltac:(discriminate)).
Defined.

(** ** Beyond the specification: the script around the function *)

Section Main.

Lemma requests_shown_app (a b : list Script.console) :
  Script.requests_shown (a ++ b)
  = (Script.requests_shown a ++ Script.requests_shown b)%list.
Proof.
  induction a as [|[text|e] a IH]; simpl; [reflexivity|exact IH|].
  destruct (is_request e); simpl; rewrite IH; reflexivity.
Qed.

Lemma requests_shown_events (t : list event) :
  Script.requests_shown (map Script.Event t) = requests t.
Proof.
  induction t as [|e t IH]; simpl; [reflexivity|].
  destruct (is_request e); rewrite IH; reflexivity.
Qed.

(** Step 2 ends with a [return] or an exception, never by falling through. *)
Lemma post_membership_ends
    (net : Transport) (token user_to_add project_key id : string) (s : state) :
  fst (post_membership net (headers_of token) user_to_add project_key id s) <> Normal tt.
Proof.
  destruct (on_post net (add_user_url_of project_key id)
              (Json.dumps_singleton_list_dict "user" user_to_add) (headers_of token))
    as [r2|msg|msg] eqn:Hp.
  - assert (Hst2 : 400 <= status_code r2 < 600 \/ ~ (400 <= status_code r2 < 600)) by lia.
    destruct Hst2 as [Hst2|Hst2].
    + rewrite (post_http_error net token user_to_add project_key id s r2 Hp Hst2).
      discriminate.
    + rewrite (post_accepted net token user_to_add project_key id s r2 Hp Hst2).
      discriminate.
  - rewrite (post_request_failed net token user_to_add project_key id s msg Hp).
    discriminate.
  - rewrite (post_crashed net token user_to_add project_key id s msg Hp). discriminate.
Qed.

(** The function never falls off its end: it returns a boolean or raises. *)
Lemma call_ends
    (token : option string) (net : Transport) (user_to_add project_key : string) :
  fst (call token net user_to_add project_key) <> Normal tt.
Proof.
  destruct (Py.opt_truthy token) eqn:Htok.
  2:{ rewrite (call_without_token net user_to_add project_key token Htok). discriminate. }
  destruct token as [tok|]; [|discriminate Htok]. simpl in Htok.
  destruct (call_cases net tok user_to_add project_key Htok) as [c [s1 [_ [_ Hcall]]]].
  destruct c as [id|b|e]; rewrite Hcall; [apply post_membership_ends|discriminate..].
Qed.

End Main.

(** X13. The script contacts the tracker only after both questions have
    been answered: with fewer than two lines on standard input it stops
    with [EOFError] and sends nothing; otherwise its requests are those of
    the one call made with the first line as the username and the second
    as the project key, and further lines are ignored. *)
Theorem script_requests
    (environ : list (string * string)) (net : Transport) (stdin : list string) :
  match stdin with
  | username :: project_key :: _ =>
      Script.requests_shown (snd (Script.main environ net stdin))
      = requests (trace_of (call (JIRA_API_TOKEN environ) net username project_key))
  | _ =>
      fst (Script.main environ net stdin) = Raise Script.EOFError /\
      Script.requests_shown (snd (Script.main environ net stdin)) = []
  end.
Proof.
  destruct stdin as [|username [|project_key rest]]; [split; reflexivity..|].
  unfold Script.main. cbv zeta. unfold snd at 1.
  rewrite !requests_shown_app, requests_shown_events. reflexivity.
Qed.

(** X14. The exit status does not tell success from failure: with two
    lines of input the script ends normally exactly when the function
    returns, be it [True] or [False], and ends with an exception exactly
    when one leaves the function; the function itself never ends without
    one or the other. *)
Theorem script_exit_ignores_result
    (environ : list (string * string)) (net : Transport)
    (username project_key : string) (rest : list string) :
  let run := call (JIRA_API_TOKEN environ) net username project_key in
  let exit_ := fst (Script.main environ net (username :: project_key :: rest)) in
  (exit_ = Normal tt <-> exists b, returned run = Some b) /\
  (forall e, exit_ = Raise e <-> fst run = Raise e) /\
  fst run <> Normal tt.
Proof.
  intros run exit_.
  pose proof (call_ends (JIRA_API_TOKEN environ) net username project_key) as Hends.
  fold run in Hends. unfold exit_, Script.main, returned. cbv zeta. fold run.
  unfold fst at 1 4.
  destruct (fst run) as [[]|b|e] eqn:E; [contradiction|..].
  - split; [split; [intros _; exists b; reflexivity|reflexivity]|].
    split; [intros e; split; discriminate|discriminate].
  - split; [split; [discriminate|intros [b H]; discriminate H]|].
    split; [intros e'; split; intros H; exact H|discriminate].
Qed.

(** X15. A missing credential is found only after both questions have been
    asked, and the script then ends normally: the terminal shows the
    banner, the two prompts, the rule of 35 dashes and the two lines of the
    report, and no request is sent. *)
Theorem script_without_credential
    (environ : list (string * string)) (net : Transport)
    (username project_key : string) (rest : list string)
    (Habsent : ~ In "JIRA_API_TOKEN" (map fst environ)) :
  Script.main environ net (username :: project_key :: rest)
  = (Normal tt,
     [ Script.Event (EvPrint "--- Jira User Role Assignment Script ---");
       Script.Event (EvPrint "Using Jira instance: https://issues.apache.org/jira");
       Script.Prompt "Enter the username to add: ";
       Script.Prompt "Enter the project key (e.g., HDDS): ";
       Script.Event (EvPrint "-----------------------------------");
       Script.Event (EvPrint msg_token_not_set);
       Script.Event (EvPrint msg_export_token) ]).
Proof.
  unfold Script.main, JIRA_API_TOKEN.
  rewrite (environ_get_absent environ _ Habsent).
  rewrite call_without_token by reflexivity. reflexivity.
Qed.

Lemma script_without_credential_witness :
  fst (Script.main [("HOME", "/root")] Scenario.happy ["alice"; "HDDS"]) = Normal tt /\
  Script.requests_shown (snd (Script.main [("HOME", "/root")] Scenario.happy ["alice"; "HDDS"]))
  = [].
Proof.
  rewrite (script_without_credential [("HOME", "/root")] Scenario.happy "alice" "HDDS" []
             ltac:(simpl; intuition discriminate)).
  split; reflexivity.
Defined.
